(** * LittleHeroes: the chat request pipeline

    A shallow embedding of the request-orchestration code of the
    repository:

    - [ai/pipelines/retrieve_primary.ts]    (module [RetrievePrimary])
    - [ai/pipelines/answer_controller.ts]   (module [AnswerController])
    - [backend/services/pipeline_runner.ts] (module [PipelineRunner])
    - [backend/services/openai_client.ts]   (module [OpenAIClient])
    - [backend/services/gemini_client.ts]   (module [GeminiClient])
    - [backend/utils/unanswered_logger.ts]  (module [UnansweredLogger])
    - [backend/api/chat_handler.ts]         (module [ChatHandler])

    The two helpers of [answer_controller.ts] that no caller uses are
    in the module [AnswerHeuristics].

    The definitions come first, one per source function and with the
    source's names; the properties of the specification follow. *)

From Stdlib Require Import String Ascii List ZArith Lia Bool Arith DecimalString.
Import ListNotations.

Local Open Scope list_scope.
Local Open Scope string_scope.

(* ================================================================== *)
(** * JavaScript strings and values                                    *)
(* ================================================================== *)

(** Strings are sequences of 8-bit characters.  [trim], the regular
    expression classes [\s] and [\w], and [toLowerCase] act on the ASCII
    range, where they are what JavaScript computes; characters above it
    are carried through unchanged. *)
Module Js.

(** ** Errors and fallible computations *)

(** A thrown [Error]: its [message], and the [statusCode] that
    [requestGemini] attaches to the failures of the HTTP layer. *)
Record js_error := mkError {
  message : string;
  statusCode : option Z
}.

Definition Error (msg : string) : js_error := mkError msg None.
Definition TypeError (msg : string) : js_error := mkError msg None.

(** The outcome of code that can throw. *)
Inductive result (A : Type) : Type :=
| Ok (a : A)
| Throw (e : js_error).
Arguments Ok {A} a.
Arguments Throw {A} e.

Definition bindR {A B} (c : result A) (k : A -> result B) : result B :=
  match c with
  | Ok a => k a
  | Throw e => Throw e
  end.

Notation "'let*' x ':=' c 'in' k" := (bindR c (fun x => k))
  (at level 10, x name, c at level 100, k at level 200).

(** ** Characters *)

Definition charCode (c : ascii) : nat := nat_of_ascii c.

Definition between (lo hi n : nat) : bool := ((lo <=? n) && (n <=? hi))%nat.

(** [\s], and the characters [trim] removes: tab, line feed, vertical
    tab, form feed, carriage return, space. *)
Definition isWhiteSpace (c : ascii) : bool :=
  between 9 13 (charCode c) || (charCode c =? 32)%nat.

(** [\w]: letters, digits and the underscore. *)
Definition isWordChar (c : ascii) : bool :=
  between 65 90 (charCode c) || between 97 122 (charCode c)
  || between 48 57 (charCode c) || (charCode c =? 95)%nat.

(** [[\w.]] *)
Definition isPathChar (c : ascii) : bool :=
  isWordChar c || (charCode c =? 46)%nat.

Definition lowerChar (c : ascii) : ascii :=
  if between 65 90 (charCode c) then ascii_of_nat (charCode c + 32) else c.

(** ** Strings *)

Fixpoint toLowerCase (s : string) : string :=
  match s with
  | EmptyString => EmptyString
  | String c s' => String (lowerChar c) (toLowerCase s')
  end.

Fixpoint trimStart (s : string) : string :=
  match s with
  | EmptyString => EmptyString
  | String c s' => if isWhiteSpace c then trimStart s' else s
  end.

Fixpoint trimEnd (s : string) : string :=
  match s with
  | EmptyString => EmptyString
  | String c s' =>
      match trimEnd s' with
      | EmptyString => if isWhiteSpace c then EmptyString else String c EmptyString
      | t => String c t
      end
  end.

Definition trim (s : string) : string := trimEnd (trimStart s).

(** [s.startsWith(sub)] *)
Fixpoint startsWith (s sub : string) {struct sub} : bool :=
  match sub with
  | EmptyString => true
  | String c sub' =>
      match s with
      | EmptyString => false
      | String d s' => Ascii.eqb c d && startsWith s' sub'
      end
  end.

(** [s.includes(sub)] *)
Fixpoint includes (s sub : string) : bool :=
  startsWith s sub ||
  match s with
  | EmptyString => false
  | String _ s' => includes s' sub
  end.

(** [parts.join(sep)] on an array of strings. *)
Fixpoint join (sep : string) (parts : list string) : string :=
  match parts with
  | [] => ""
  | [p] => p
  | p :: rest => p ++ sep ++ join sep rest
  end.

(** A string is truthy when it is not empty: [.filter(Boolean)] on an
    array of strings. *)
Definition nonEmpty (s : string) : bool := negb (s =? "").

Definition filterBoolean (parts : list string) : list string :=
  filter nonEmpty parts.

(** The longest prefix of [s] whose characters satisfy [p], and the
    rest of [s]: a greedy [p*]. *)
Fixpoint span (p : ascii -> bool) (s : string) : string * string :=
  match s with
  | EmptyString => (EmptyString, EmptyString)
  | String c s' =>
      if p c then let (taken, rest) := span p s' in (String c taken, rest)
      else (EmptyString, s)
  end.

(** [s.split(sep)] for a one-character separator. *)
Fixpoint splitChar (sep : ascii) (s : string) : list string :=
  match s with
  | EmptyString => [EmptyString]
  | String c s' =>
      if Ascii.eqb c sep then EmptyString :: splitChar sep s'
      else match splitChar sep s' with
           | [] => [String c EmptyString]
           | first :: others => String c first :: others
           end
  end.

(** [s.split(/\r?\n/)] *)
Fixpoint splitLines (s : string) : list string :=
  match s with
  | EmptyString => [EmptyString]
  | String c s' =>
      let continue :=
        match splitLines s' with
        | [] => [String c EmptyString]
        | first :: others => String c first :: others
        end in
      if (charCode c =? 10)%nat then EmptyString :: splitLines s'
      else if (charCode c =? 13)%nat then
        match s' with
        | String c' s'' =>
            if (charCode c' =? 10)%nat then EmptyString :: splitLines s'' else continue
        | EmptyString => continue
        end
      else continue
  end.

(** [s.replace(/\s+/g, " ")] *)
Fixpoint collapseWhiteSpace (s : string) : string :=
  match s with
  | EmptyString => EmptyString
  | String c s' =>
      if isWhiteSpace c then
        match s' with
        | String c' _ =>
            if isWhiteSpace c' then collapseWhiteSpace s'
            else String " " (collapseWhiteSpace s')
        | EmptyString => String " " EmptyString
        end
      else String c (collapseWhiteSpace s')
  end.

Definition natToString (n : nat) : string :=
  NilZero.string_of_uint (Nat.to_uint n).

Definition intToString (z : Z) : string :=
  NilZero.string_of_int (Z.to_int z).

(** ** Values *)

(** What [JSON.parse] returns.  A number is carried by the text that
    [Number.prototype.toString] gives it: the program prints numbers
    and tests them for truthiness, and does nothing else with them.
    An object is the list of its own properties in enumeration order. *)
#[local] Unset Elimination Schemes.
Inductive value : Type :=
| VNull
| VBool (b : bool)
| VNum (repr : string)
| VStr (s : string)
| VArr (items : list value)
| VObj (fields : list (string * value)).
#[local] Set Elimination Schemes.

(** [x || y], [!x], [if (x)]: the falsy values are [null], [false],
    [0], [NaN] and the empty string. *)
Definition truthy (v : value) : bool :=
  match v with
  | VNull => false
  | VBool b => b
  | VNum repr => negb ((repr =? "0") || (repr =? "NaN"))
  | VStr s => nonEmpty s
  | VArr _ | VObj _ => true
  end.

(** [undefined] is [None]. *)
Definition truthyOpt (v : option value) : bool :=
  match v with
  | Some x => truthy x
  | None => false
  end.

(** [x || d] *)
Definition orElse (v : option value) (d : value) : value :=
  match v with
  | Some x => if truthy x then x else d
  | None => d
  end.

Definition isString (v : value) : bool :=
  match v with
  | VStr _ => true
  | _ => false
  end.

(** [typeof v === "object"]: arrays, objects and [null]. *)
Definition typeofObject (v : value) : bool :=
  match v with
  | VNull | VArr _ | VObj _ => true
  | _ => false
  end.

(** [String(v)], also what a template literal and [join] do with [v].
    An object prints as every object does that keeps the built-in
    [toString]. *)
Fixpoint toString (v : value) : string :=
  match v with
  | VNull => "null"
  | VBool true => "true"
  | VBool false => "false"
  | VNum repr => repr
  | VStr s => s
  | VArr items =>
      join "," (map (fun item => match item with
                                 | VNull => ""
                                 | _ => toString item
                                 end) items)
  | VObj _ => "[object Object]"
  end.

(** [items.join(sep)]: [null] elements print as the empty string. *)
Definition joinValues (sep : string) (items : list value) : string :=
  join sep (map (fun item => match item with
                             | VNull => ""
                             | _ => toString item
                             end) items).

(** The own property [k] of a list of properties. *)
Fixpoint lookup {A} (fields : list (string * A)) (k : string) : option A :=
  match fields with
  | [] => None
  | (k', v) :: rest => if k' =? k then Some v else lookup rest k
  end.

(** The array index that the property name [k] denotes, below [n]. *)
Definition arrayIndex (k : string) (n : nat) : option nat :=
  find (fun i => natToString i =? k) (seq 0 n).

(** [v[k]] for a [v] that is not [null]: own properties only.  Arrays
    and strings have their elements and [length]. *)
Definition member (v : value) (k : string) : option value :=
  match v with
  | VObj fields => lookup fields k
  | VArr items =>
      if k =? "length" then Some (VNum (natToString (List.length items)))
      else match arrayIndex k (List.length items) with
           | Some i => nth_error items i
           | None => None
           end
  | VStr s =>
      if k =? "length" then Some (VNum (natToString (String.length s)))
      else match arrayIndex k (String.length s) with
           | Some i => option_map (fun c => VStr (String c EmptyString)) (String.get i s)
           | None => None
           end
  | _ => None
  end.

(** [v.k]: reading a property of [null] throws. *)
Definition getProp (v : value) (k : string) : result (option value) :=
  match v with
  | VNull => Throw (TypeError ("Cannot read properties of null (reading '" ++ k ++ "')"))
  | _ => Ok (member v k)
  end.

(** [v?.k] *)
Definition optChain (v : option value) (k : string) : option value :=
  match v with
  | None | Some VNull => None
  | Some x => member x k
  end.

(** [a ?? b] *)
Definition nullish (a b : option value) : option value :=
  match a with
  | None | Some VNull => b
  | _ => a
  end.

(** [k in v], for an array or an object [v]. *)
Definition hasProperty (v : value) (k : string) : bool :=
  match member v k with
  | Some _ => true
  | None => false
  end.

(** ** JSON.stringify(v, null, 2) *)

Definition hexDigit (n : nat) : ascii :=
  if (n <? 10)%nat then ascii_of_nat (48 + n) else ascii_of_nat (87 + n).

Definition doubleQuote : string := String (ascii_of_nat 34) EmptyString.
Definition backslash : string := String (ascii_of_nat 92) EmptyString.

(** One character inside a JSON string literal. *)
Definition quoteChar (c : ascii) : string :=
  let n := charCode c in
  if (n =? 34)%nat then backslash ++ doubleQuote
  else if (n =? 92)%nat then backslash ++ backslash
  else if (n =? 8)%nat then backslash ++ "b"
  else if (n =? 12)%nat then backslash ++ "f"
  else if (n =? 10)%nat then backslash ++ "n"
  else if (n =? 13)%nat then backslash ++ "r"
  else if (n =? 9)%nat then backslash ++ "t"
  else if (n <? 32)%nat then
    backslash ++ "u00"
    ++ String (hexDigit (n / 16)) (String (hexDigit (n mod 16)) EmptyString)
  else String c EmptyString.

Fixpoint quoteBody (s : string) : string :=
  match s with
  | EmptyString => EmptyString
  | String c s' => quoteChar c ++ quoteBody s'
  end.

Definition quote (s : string) : string := doubleQuote ++ quoteBody s ++ doubleQuote.

(** The line feed. *)
Definition LF : string := String (ascii_of_nat 10) EmptyString.

(** A number that is not finite prints as [null]. *)
Definition stringifyNumber (repr : string) : string :=
  if (repr =? "Infinity") || (repr =? "-Infinity") || (repr =? "NaN")
  then "null" else repr.

(** [JSON.stringify(v, null, 2)] at the current indentation. *)
Fixpoint stringifyAt (indent : string) (v : value) : string :=
  let inner := indent ++ "  " in
  match v with
  | VNull => "null"
  | VBool true => "true"
  | VBool false => "false"
  | VNum repr => stringifyNumber repr
  | VStr s => quote s
  | VArr [] => "[]"
  | VArr items =>
      "[" ++ LF ++ inner
      ++ join ("," ++ LF ++ inner) (map (stringifyAt inner) items)
      ++ LF ++ indent ++ "]"
  | VObj [] => "{}"
  | VObj fields =>
      "{" ++ LF ++ inner
      ++ join ("," ++ LF ++ inner)
           (map (fun kv => quote (fst kv) ++ ": " ++ stringifyAt inner (snd kv)) fields)
      ++ LF ++ indent ++ "}"
  end.

Definition stringify (v : value) : string := stringifyAt "" v.
End Js.

(* ================================================================== *)
(** * The host: files, environment, network, log                       *)
(* ================================================================== *)

Module Host.
Import Js.

(** A file: its text, and what [JSON.parse] makes of the text. *)
Record file := mkFile {
  content : string;
  parsed : result value
}.

(** One exchange with a remote service: the response with its status
    code, its body and the parse of the body, or the [error] event of
    the request. *)
Inductive http_exchange :=
| Response (status : Z) (data : string) (json : result value)
| RequestError (e : js_error).

(** [Math.random()], a fraction in [0, 1): [numerator < denominator]. *)
Record fraction := mkFraction {
  numerator : nat;
  denominator : nat
}.

(** [Math.floor(r * n)] *)
Definition floorMul (r : fraction) (n : nat) : nat :=
  (numerator r * n) / denominator r.

(** What the process finds around it.  Paths are relative to
    [process.cwd()], one list element per segment; [network i] is the
    outcome of the [i]-th request the process sends. *)
Record World := mkWorld {
  files : list string -> option file;
  env : string -> option string;
  random : fraction;
  now : string;
  logWritable : bool;
  network : nat -> http_exchange
}.

(** [process.env.NAME || fallback], and [!process.env.NAME]. *)
Definition envOr (w : World) (name fallback : string) : string :=
  match env w name with
  | Some v => if nonEmpty v then v else fallback
  | None => fallback
  end.

(** A turn sent to the Gemini API: [{ role, parts: [{ text }] }]. *)
Record content_turn := mkTurn {
  role : string;
  text : string
}.

Inductive http_request :=
| OpenAIChat (apiKey : string) (model : string) (messages : list value)
| GeminiGenerate (model : string) (apiKey : string) (contents : list content_turn)
| GeminiListModels (apiKey : string).

(** [backend/utils/unanswered_logger.ts]: [UnansweredRecord] *)
Record UnansweredRecord := mkRecord {
  timestamp : string;
  character : string;
  message : string;
  reason : string
}.

(** The body handed to [sendJson]. *)
Inductive response_body :=
| ErrorBody (error : string)
| AnswerBody (answer : string) (shouldRefuse : bool).

Inductive provider := OpenAI | Gemini.

(** What a run does that can be seen from outside, in order. *)
Inductive event :=
| Called (p : provider) (systemPrompt userPrompt : string) (conversationHistory : list value)
| Sent (r : http_request)
| Logged (r : UnansweredRecord)
| SendJson (status : Z) (body : response_body)
| End (status : Z).

Record State := mkState {
  sent : nat;
  trace : list event;
  logFile : list UnansweredRecord
}.

Definition initial : State := mkState 0 [] [].

(** State and exceptions: the state a computation leaves is kept when
    it throws. *)
Definition M (A : Type) : Type := State -> State * result A.

Definition ret {A} (a : A) : M A := fun s => (s, Ok a).

Definition throw {A} (e : js_error) : M A := fun s => (s, Throw e).

Definition bind {A B} (c : M A) (k : A -> M B) : M B :=
  fun s =>
    match c s with
    | (s', Ok a) => k a s'
    | (s', Throw e) => (s', Throw e)
    end.

(** [try { c } catch (error) { handler error }] *)
Definition tryCatch {A} (c : M A) (handler : js_error -> M A) : M A :=
  fun s =>
    match c s with
    | (s', Ok a) => (s', Ok a)
    | (s', Throw e) => handler e s'
    end.

Definition lift {A} (r : result A) : M A := fun s => (s, r).

Definition emit (e : event) : M unit :=
  fun s => (mkState (sent s) (trace s ++ [e])%list (logFile s), Ok tt).

(** Send a request and wait for the exchange to end. *)
Definition http (w : World) (r : http_request) : M http_exchange :=
  fun s =>
    (mkState (S (sent s)) (trace s ++ [Sent r])%list (logFile s),
     Ok (network w (sent s))).

Notation "x <- c ;; k" := (bind c (fun x => k))
  (at level 61, c at next level, right associativity).
Notation "c ;; k" := (bind c (fun _ => k))
  (at level 61, right associativity).

Definition run {A} (c : M A) : State * result A := c initial.
End Host.

(* ================================================================== *)
(** * ai/pipelines/retrieve_primary.ts                                 *)
(* ================================================================== *)

Module RetrievePrimary.
Import Js Host.

Record PrimaryRagResult := mkPrimary {
  context : string;
  guardrails : value;
  characterId : value;
  characterName : value
}.

Definition readJsonSafe (w : World) (filePath : list string) : value :=
  match files w filePath with
  | None => VObj []
  | Some f =>
      match parsed f with
      | Ok v => v
      | Throw _ => VObj []
      end
  end.

Definition formatSection (title : string) (data : value) : string :=
  "## " ++ title ++ LF ++ stringify data ++ LF.

(** [Object.entries(v)] for an array or an object. *)
Definition entries (v : value) : list (string * value) :=
  match v with
  | VObj fields => fields
  | VArr items => combine (map natToString (seq 0 (List.length items))) items
  | _ => []
  end.

Definition formatVirtues (virtues : option value) : string :=
  match virtues with
  | None => ""
  | Some v =>
      if negb (truthy v) || negb (typeofObject v) then ""
      else
        let virtueEntries := entries v in
        if (List.length virtueEntries =? 0)%nat then ""
        else
          let formatted :=
            join LF (map (fun entry => "- **" ++ fst entry ++ "**: " ++ toString (snd entry))
                         virtueEntries) in
          "## Character Virtues" ++ LF ++ formatted ++ LF
  end.

Definition formatArraySection (title : string) (items : value) : string :=
  match items with
  | VArr (first :: others) =>
      let formatted :=
        join LF (map (fun item => "- " ++ match item with
                                          | VStr text => text
                                          | _ => toString item
                                          end)
                     (first :: others)) in
      "## " ++ title ++ LF ++ formatted ++ LF
  | _ => ""
  end.

(** [identity.background.map(...)]: an item that is [null] throws. *)
Fixpoint backgroundItems (items : list value) : result (list value) :=
  match items with
  | [] => Ok []
  | item :: rest =>
      let* mapped :=
        (if isString item then Ok item
         else let* fact := getProp item "fact" in Ok (orElse fact (VStr ""))) in
      let* others := backgroundItems rest in
      Ok (mapped :: others)
  end.

Definition loadPrimaryRag (w : World) (characterSlug : string) : result PrimaryRagResult :=
  let baseDir := ["ai"; "primary-rag"; characterSlug] in
  let identityPath := (baseDir ++ ["identity.json"])%list in
  let stylePath := (baseDir ++ ["style.json"])%list in
  let guardrailsPath := (baseDir ++ ["guardrails.json"])%list in
  let identity := readJsonSafe w identityPath in
  let style := readJsonSafe w stylePath in
  let guardrails := readJsonSafe w guardrailsPath in
  let* character_id := getProp identity "character_id" in
  let characterId := orElse character_id (VStr characterSlug) in
  let* character := getProp identity "character" in
  let characterName := orElse (optChain character "name") (VStr characterSlug) in
  let* background := getProp identity "background" in
  let* backgroundFacts :=
    match background with
    | Some (VArr items) =>
        let* mapped := backgroundItems items in
        Ok (joinValues LF (filter truthy mapped))
    | _ => Ok ""
    end in
  let* virtues := getProp identity "virtues" in
  let virtuesSection := formatVirtues virtues in
  let* teaching_guidance := getProp identity "teaching_guidance" in
  let teachingGuidanceSection :=
    formatArraySection "Teaching Guidance" (orElse teaching_guidance (VArr [])) in
  let* coach_lines := getProp identity "coach_lines" in
  let coachLinesSection := formatArraySection "Coach Lines" (orElse coach_lines (VArr [])) in
  let* quotes := getProp identity "quotes" in
  let quotesSection := formatArraySection "Quotes" (orElse quotes (VArr [])) in
  let* daily_missions := getProp identity "daily_missions" in
  let dailyMissionsSection :=
    formatArraySection "Daily Missions" (orElse daily_missions (VArr [])) in
  let context :=
    join LF (filterBoolean [
      formatSection "Identity" identity;
      formatSection "Style" style;
      (if nonEmpty backgroundFacts
       then "## Background Facts" ++ LF ++ backgroundFacts ++ LF else "");
      virtuesSection;
      teachingGuidanceSection;
      coachLinesSection;
      quotesSection;
      dailyMissionsSection
    ]) in
  Ok (mkPrimary context guardrails characterId characterName).
End RetrievePrimary.

(* ================================================================== *)
(** * ai/pipelines/answer_controller.ts                                *)
(* ================================================================== *)

Module AnswerController.
Import Js Host.

(** [TemplateVars]: a variable is a value or [undefined]. *)
Definition TemplateVars : Type := list (string * option value).

Record RagAnswerInput := mkInput {
  question : string;
  context : string;
  character : option value;
  refusalText : option string;
  guardrails : option value;
  conversationHistory : list value
}.

Record RagPrompt := mkPrompt {
  system : string;
  user : string;
  shouldRefuse : bool
}.

Record SafetyConfig := mkSafety {
  forbiddenTopics : list value;
  childSafeRules : string;
  escalationPolicy : string
}.

Definition PROMPT_DIR : list string := ["ai"; "prompts"].
Definition SAFETY_DIR : list string := ["ai"; "safety"].

Definition readPrompt (w : World) (fileName : string) : string :=
  match files w (PROMPT_DIR ++ [fileName])%list with
  | None => ""
  | Some f => content f
  end.

Definition readSafetyFile (w : World) (fileName : string) : string :=
  match files w (SAFETY_DIR ++ [fileName])%list with
  | None => ""
  | Some f => content f
  end.

Definition readJsonSafe (w : World) (filePath : list string) : value :=
  match files w filePath with
  | None => VObj []
  | Some f =>
      match parsed f with
      | Ok v => v
      | Throw _ => VObj []
      end
  end.

Definition isOpenBrace (c : ascii) : bool := (charCode c =? 123)%nat.
Definition isCloseBrace (c : ascii) : bool := (charCode c =? 125)%nat.

(** A match of [/\{\{\s*(K+)\s*\}\}/] at the start of [s], for the
    character class [K] given by [keyChar]: the captured key and what
    follows the match.  The classes [\s], [K] and the closing brace
    are disjoint, so the greedy match is the only one. *)
Definition matchToken (keyChar : ascii -> bool) (s : string) : option (string * string) :=
  match s with
  | String c1 (String c2 r) =>
      if isOpenBrace c1 && isOpenBrace c2 then
        let (_, r1) := span isWhiteSpace r in
        let (key, r2) := span keyChar r1 in
        if nonEmpty key then
          let (_, r3) := span isWhiteSpace r2 in
          match r3 with
          | String c3 (String c4 rest) =>
              if isCloseBrace c3 && isCloseBrace c4 then Some (key, rest) else None
          | _ => None
          end
        else None
      else None
  | _ => None
  end.

(** [s.replace(re, replacer)] for the global expression of
    [matchToken]: the scan goes from left to right, a match is
    replaced by what [replacer] returns for its key, and the scan
    resumes behind the match.  [skip] counts the characters of the
    current match that are still to be passed. *)
Fixpoint replaceTokens (keyChar : ascii -> bool) (replacer : string -> string)
                       (skip : nat) (s : string) : string :=
  match s with
  | EmptyString => EmptyString
  | String c s' =>
      match skip with
      | S n => replaceTokens keyChar replacer n s'
      | O =>
          match matchToken keyChar s with
          | Some (key, rest) =>
              replacer key
              ++ replaceTokens keyChar replacer (String.length s' - String.length rest) s'
          | None => String c (replaceTokens keyChar replacer O s')
          end
      end
  end.

(** The loop over the keys of a dotted path, from the value reached so
    far: [None] when the path is not found. *)
Fixpoint traverse (reached : option value) (keys : list string) : option (option value) :=
  match keys with
  | [] => Some reached
  | key :: rest =>
      match reached with
      | Some v =>
          if truthy v && typeofObject v && hasProperty v key
          then traverse (member v key) rest
          else None
      | None => None
      end
  end.

(** The same loop from [vars] itself, where a key can be present with
    the value [undefined]. *)
Definition resolvePath (vars : TemplateVars) (keys : list string) : option (option value) :=
  match keys with
  | [] => Some None
  | key :: rest =>
      match lookup vars key with
      | Some reached => traverse reached rest
      | None => None
      end
  end.

(** The replacer of the first pass, for [{{key}}]. *)
Definition replaceSimple (vars : TemplateVars) (key : string) : string :=
  match lookup vars key with
  | Some (Some v) => toString v
  | _ => ""
  end.

(** The replacer of the second pass, for [{{a.b.c}}]. *)
Definition replaceNested (vars : TemplateVars) (path : string) : string :=
  let keys := splitChar "." path in
  match resolvePath vars keys with
  | None => ""
  | Some (Some (VArr items)) => joinValues ". " items
  | Some (Some VNull) | Some None => ""
  | Some (Some v) => toString v
  end.

Definition renderTemplate (template : string) (vars : TemplateVars) : string :=
  let result := replaceTokens isWordChar (replaceSimple vars) 0 template in
  replaceTokens isPathChar (replaceNested vars) 0 result.

Definition loadSafetyConfig (w : World) : result SafetyConfig :=
  let forbidden := readJsonSafe w (SAFETY_DIR ++ ["forbidden_topics.json"])%list in
  let* hard_blocked_topics := getProp forbidden "hard_blocked_topics" in
  let forbiddenTopics :=
    match hard_blocked_topics with
    | Some (VArr items) => items
    | _ => []
    end in
  Ok (mkSafety forbiddenTopics
               (readSafetyFile w "child_safe_rules.txt")
               (readSafetyFile w "escalation_policy.md")).

Definition containsForbiddenTopic (text : string) (topics : list value) : bool :=
  let lower := toLowerCase text in
  existsb (fun topic => includes lower (toLowerCase (toString topic))) topics.

Definition asksForPersonalInfo (text : string) : bool :=
  let lower := toLowerCase text in
  includes lower "address"
  || includes lower "phone"
  || includes lower "email"
  || includes lower "last name"
  || includes lower "full name".

Definition enforceSafety (answer : string) (safety : SafetyConfig)
                         (guardrails : value) (refusalText : string) : string :=
  if containsForbiddenTopic answer (forbiddenTopics safety) then refusalText
  else if asksForPersonalInfo answer then refusalText
  else answer.

(** [x ?? ""] *)
Definition orEmptyString (v : option value) : value :=
  match nullish v (Some (VStr "")) with
  | Some x => x
  | None => VStr ""
  end.

Definition buildRagOnlyPrompt (w : World) (input : RagAnswerInput) : RagPrompt :=
  let systemPrompt := readPrompt w "system.txt" in
  let characterPrompt := readPrompt w "character.txt" in
  let answerPrompt := readPrompt w "answer_with_rag.txt" in
  let refusalText :=
    match refusalText input with
    | Some text => text
    | None => readPrompt w "refusal.txt"
    end in
  let context := trim (if nonEmpty (context input) then context input else "") in
  let shouldRefuse := (String.length context =? 0)%nat in
  let system :=
    join (LF ++ LF) (filterBoolean [
      systemPrompt;
      renderTemplate characterPrompt [("character", Some (orEmptyString (character input)))]
    ]) in
  let user :=
    renderTemplate answerPrompt [
      ("context", Some (VStr context));
      ("question", Some (VStr (question input)));
      ("character", Some (orEmptyString (character input)));
      ("refusal_text", Some (VStr refusalText));
      ("guardrails", Some (orElse (guardrails input) (VObj [])))
    ] in
  mkPrompt system user shouldRefuse.

Definition buildRefusalText (w : World) : string :=
  let raw := readPrompt w "refusal.txt" in
  let options := filter (fun line => (0 <? String.length line)%nat) (map trim (splitLines raw)) in
  if (List.length options =? 0)%nat then ""
  else
    let index := floorMul (random w) (List.length options) in
    nth index options "".
End AnswerController.

(* ================================================================== *)
(** * backend/services/pipeline_runner.ts                              *)
(* ================================================================== *)

Module PipelineRunner.
Import Js Host.

Record PipelineInputs := mkPipeline {
  prompt : AnswerController.RagPrompt;
  primary : RetrievePrimary.PrimaryRagResult;
  safety : AnswerController.SafetyConfig;
  refusalText : string;
  conversationHistory : list value
}.

Definition loadPipelineInputs (w : World) (characterSlug message : string)
                              (conversationHistory : list value) : result PipelineInputs :=
  let* primary := RetrievePrimary.loadPrimaryRag w characterSlug in
  let* safety := AnswerController.loadSafetyConfig w in
  let refusalText := AnswerController.buildRefusalText w in
  let prompt :=
    AnswerController.buildRagOnlyPrompt w
      (AnswerController.mkInput
         message
         (RetrievePrimary.context primary)
         (Some (RetrievePrimary.characterName primary))
         (Some refusalText)
         (Some (RetrievePrimary.guardrails primary))
         conversationHistory) in
  Ok (mkPipeline prompt primary safety refusalText conversationHistory).

Definition applySafety (answer : string) (safety : AnswerController.SafetyConfig)
                       (guardrails : value) (refusalText : string) : string :=
  AnswerController.enforceSafety answer safety guardrails refusalText.
End PipelineRunner.

(* ================================================================== *)
(** * backend/services/openai_client.ts                                *)
(* ================================================================== *)

Module OpenAIClient.
Import Js Host.

Definition OPENAI_MODEL : string := "gpt-4o-mini".

(** [status < 200 || status >= 300] *)
Definition notSuccess (status : Z) : bool := ((status <? 200) || (300 <=? status))%Z.

Definition chatMessage (role content : string) : value :=
  VObj [("role", VStr role); ("content", VStr content)].

(** The callbacks of the request: what the promise settles to when
    the exchange is over. *)
Definition chatOutcome (exchange : http_exchange) : result string :=
  match exchange with
  | RequestError error => Throw error
  | Response status data json =>
      if notSuccess status
      then Throw (Error ("OpenAI error " ++ intToString status ++ ": " ++ data))
      else
        let* parsed := json in
        let text :=
          optChain (optChain (optChain (optChain (Some parsed) "choices") "0")
                             "message") "content" in
        Ok (match text with
            | Some t => if truthy t then trim (toString t) else ""
            | None => ""
            end)
  end.

Definition callOpenAI (w : World) (systemPrompt userPrompt : string)
                      (conversationHistory : list value) : M string :=
  emit (Called OpenAI systemPrompt userPrompt conversationHistory) ;;
  let apiKey := envOr w "OPENAI_API_KEY" "" in
  if negb (nonEmpty apiKey) then throw (Error "Missing OPENAI_API_KEY")
  else
    let messages :=
      ([chatMessage "system" systemPrompt]
         ++ conversationHistory
         ++ [chatMessage "user" userPrompt])%list in
    exchange <- http w (OpenAIChat apiKey OPENAI_MODEL messages) ;;
    lift (chatOutcome exchange).
End OpenAIClient.

(* ================================================================== *)
(** * backend/services/gemini_client.ts                                *)
(* ================================================================== *)

Module GeminiClient.
Import Js Host.

Definition DEFAULT_GEMINI_MODEL : string := "gemini-1.5-flash".
Definition FALLBACK_MODELS : list string := ["gemini-1.5-pro"; "gemini-1.0-pro"].
Definition PREFERRED_MODELS : list string := DEFAULT_GEMINI_MODEL :: FALLBACK_MODELS.

Definition notSuccess (status : Z) : bool := ((status <? 200) || (300 <=? status))%Z.

(** The callbacks of [requestGemini]: what the promise settles to
    when the exchange is over. *)
Definition generateOutcome (exchange : http_exchange) : result string :=
  match exchange with
  | RequestError error => Throw error
  | Response status data json =>
      if notSuccess status
      then Throw (mkError ("Gemini error " ++ intToString status ++ ": " ++ data)
                          (Some status))
      else
        let* parsed := json in
        let candidate :=
          optChain (optChain (optChain (Some parsed) "candidates") "0") "content" in
        let text :=
          nullish
            (nullish (optChain (optChain (optChain candidate "parts") "0") "text")
                     (optChain candidate "text"))
            (Some (VStr "")) in
        Ok (match text with
            | Some t => if truthy t then trim (toString t) else ""
            | None => ""
            end)
  end.

Definition requestGemini (w : World) (model apiKey : string)
                         (contents : list content_turn) : M string :=
  exchange <- http w (GeminiGenerate model apiKey contents) ;;
  lift (generateOutcome exchange).

(** [name.replace(/^models\//, "")] *)
Definition stripModelsPrefix (name : string) : string :=
  if startsWith name "models/" then String.substring 7 (String.length name - 7) name
  else name.

(** The [filter] of [listGeminiModels]: a model that lists its
    generation methods must list [generateContent]. *)
Definition supportsGeneration (model : value) : bool :=
  match optChain (Some model) "supportedGenerationMethods" with
  | Some (VArr methods) =>
      existsb (fun m => match m with
                        | VStr name => name =? "generateContent"
                        | _ => false
                        end) methods
  | _ => true
  end.

Definition listOutcome (exchange : http_exchange) : result (list string) :=
  match exchange with
  | RequestError error => Throw error
  | Response status data json =>
      if notSuccess status
      then Throw (Error ("Gemini list models error " ++ intToString status ++ ": " ++ data))
      else
        let* parsed := json in
        let models :=
          match optChain (Some parsed) "models" with
          | Some (VArr items) => items
          | _ => []
          end in
        let available :=
          map stripModelsPrefix
            (filter (fun name => (0 <? String.length name)%nat)
               (map (fun model => toString (orElse (optChain (Some model) "name") (VStr "")))
                  (filter supportsGeneration models))) in
        Ok available
  end.

Definition listGeminiModels (w : World) (apiKey : string) : M (list string) :=
  exchange <- http w (GeminiListModels apiKey) ;;
  lift (listOutcome exchange).

(** [self.indexOf(x)], counted from [i]. *)
Fixpoint indexOfFrom (i : nat) (self : list string) (x : string) : option nat :=
  match self with
  | [] => None
  | y :: rest => if y =? x then Some i else indexOfFrom (S i) rest x
  end.

Definition indexOf (self : list string) (x : string) : option nat :=
  indexOfFrom 0 self x.

(** [self.filter((value, index, self) => self.indexOf(value) === index)] *)
Definition unique (self : list string) : list string :=
  map snd
    (filter (fun entry =>
               match indexOf self (snd entry) with
               | Some i => (i =? fst entry)%nat
               | None => false
               end)
            (combine (seq 0 (List.length self)) self)).

(** The turns of the conversation history, in the format of the
    Gemini API. *)
Fixpoint historyContents (conversationHistory : list value) : list content_turn :=
  match conversationHistory with
  | [] => []
  | msg :: rest =>
      if truthy msg
         && truthyOpt (optChain (Some msg) "role")
         && truthyOpt (optChain (Some msg) "content")
      then
        mkTurn (match optChain (Some msg) "role" with
                | Some (VStr "assistant") => "model"
                | _ => "user"
                end)
               (match optChain (Some msg) "content" with
                | Some c => toString c
                | None => ""
                end)
        :: historyContents rest
      else historyContents rest
  end.

(** How the loop over the candidate models ends: the function has
    returned a text, or the loop is over with [lastError]. *)
Inductive loop_end :=
| Returned (text : string)
| Fell (lastError : option js_error).

(** The [for] loop of [callGemini], from the model at the head of
    [models] on. *)
Fixpoint tryModels (w : World) (apiKey : string) (contents : list content_turn)
                   (models : list string) (lastError : option js_error) : M loop_end :=
  match models with
  | [] => ret (Fell lastError)
  | model :: rest =>
      tryCatch
        (text <- requestGemini w model apiKey contents ;; ret (Returned text))
        (fun error =>
           let status := match statusCode error with
                         | Some code => code
                         | None => 0%Z
                         end in
           if negb (status =? 404)%Z then ret (Fell (Some error))
           else tryModels w apiKey contents rest (Some error))
  end.

(** Lines 164 to 175 of [callGemini], behind the loop: ask the
    service for its models, try one of them once, and throw the last
    error when that gives no text. *)
Definition discoverAndRetry (w : World) (apiKey : string) (contents : list content_turn)
                            (lastError : option js_error) : M string :=
  recovered <-
    tryCatch
      (available <- listGeminiModels w apiKey ;;
       let preferred :=
         find (fun model => existsb (String.eqb model) available) PREFERRED_MODELS in
       let fallback :=
         match preferred with
         | Some model => if nonEmpty model then Some model else hd_error available
         | None => hd_error available
         end in
       match fallback with
       | Some model =>
           if nonEmpty model
           then text <- requestGemini w model apiKey contents ;; ret (Returned text)
           else ret (Fell lastError)
       | None => ret (Fell lastError)
       end)
      (fun error => ret (Fell (Some error))) ;;
  match recovered with
  | Returned text => ret text
  | Fell (Some error) => throw error
  | Fell None => throw (Error "Gemini failed")
  end.

(** The candidate models: the configured one, the default, the safe
    fallbacks, each once. *)
Definition candidateModels (w : World) : list string :=
  let configured := envOr w "GEMINI_MODEL" DEFAULT_GEMINI_MODEL in
  unique (configured :: DEFAULT_GEMINI_MODEL :: FALLBACK_MODELS).

(** The [contents] of the requests. *)
Definition buildContents (systemPrompt userPrompt : string)
                         (conversationHistory : list value) : list content_turn :=
  ([mkTurn "user" systemPrompt]
     ++ historyContents conversationHistory
     ++ [mkTurn "user" userPrompt])%list.

Definition callGemini (w : World) (systemPrompt userPrompt : string)
                      (conversationHistory : list value) : M string :=
  emit (Called Gemini systemPrompt userPrompt conversationHistory) ;;
  let apiKey := envOr w "GEMINI_API_KEY" "" in
  if negb (nonEmpty apiKey) then throw (Error "Missing GEMINI_API_KEY")
  else
    let models := candidateModels w in
    let contents := buildContents systemPrompt userPrompt conversationHistory in
    looped <- tryModels w apiKey contents models None ;;
    match looped with
    | Returned text => ret text
    | Fell lastError => discoverAndRetry w apiKey contents lastError
    end.
End GeminiClient.

(* ================================================================== *)
(** * backend/utils/unanswered_logger.ts                               *)
(* ================================================================== *)

Module UnansweredLogger.
Import Js Host.

(** A record with an empty field is reported and dropped; a failure of
    the file system is caught, and the caller never sees it. *)
Definition logUnansweredQuestion (w : World) (record : UnansweredRecord) : M unit :=
  fun s =>
    let called := (trace s ++ [Logged record])%list in
    if negb (nonEmpty (timestamp record)) || negb (nonEmpty (character record))
       || negb (nonEmpty (Host.message record)) || negb (nonEmpty (reason record))
    then (mkState (sent s) called (logFile s), Ok tt)
    else if logWritable w
    then (mkState (sent s) called (logFile s ++ [record])%list, Ok tt)
    else (mkState (sent s) called (logFile s), Ok tt).
End UnansweredLogger.

(* ================================================================== *)
(** * backend/api/chat_handler.ts                                      *)
(* ================================================================== *)

Module ChatHandler.
Import Js Host.
Import PipelineRunner.

(** The request as the handler reads it: [req.method], [req.url], the
    raw body and what [JSON.parse] makes of it. *)
Record Request := mkRequest {
  method : string;
  url : string;
  body : string;
  bodyJson : result value
}.

Definition sendJson (status : Z) (body : response_body) : M unit :=
  emit (SendJson status body).

Definition normalize (text : string) : string :=
  collapseWhiteSpace (trim (if nonEmpty text then text else "")).

(** The failures of the primary provider that let the handler try
    the secondary one. *)
Definition isQuotaError (openAiMessage : string) : bool :=
  includes openAiMessage "insufficient_quota"
  || includes openAiMessage "OpenAI error 429"
  || includes openAiMessage "Missing OPENAI_API_KEY".

(** [String(error?.message || fallback)] *)
Definition messageOr (error : js_error) (fallback : string) : string :=
  if nonEmpty (Js.message error) then Js.message error else fallback.

(** Lines 80 to 115 of the handler, the [catch] block of the call of
    the primary provider: the answer of the secondary provider, or
    [None] when the handler has answered 500 and returned. *)
Definition openAIFailed (w : World) (characterSlug message : string)
                        (pipeline : PipelineInputs) (error : js_error) : M (option string) :=
  let openAiMessage := messageOr error "OpenAI failed" in
  if negb (isQuotaError openAiMessage) then
    UnansweredLogger.logUnansweredQuestion w
      (mkRecord (now w) characterSlug message ("openai_error:" ++ openAiMessage)) ;;
    sendJson 500 (ErrorBody ("OpenAI failed: " ++ openAiMessage)) ;;
    ret None
  else
    tryCatch
      (text <- GeminiClient.callGemini w
                 (AnswerController.system (prompt pipeline))
                 (AnswerController.user (prompt pipeline))
                 (conversationHistory pipeline) ;;
       ret (Some text))
      (fun fallbackError =>
         let fallbackMessage := messageOr fallbackError "Gemini failed" in
         UnansweredLogger.logUnansweredQuestion w
           (mkRecord (now w) characterSlug message ("gemini_error:" ++ fallbackMessage)) ;;
         sendJson 500
           (ErrorBody ("OpenAI failed: " ++ openAiMessage
                       ++ ". Gemini failed: " ++ fallbackMessage)) ;;
         ret None).

(** Lines 62 to 116 of the handler: the raw answer, or [None] when
    the handler has answered 500 and returned. *)
Definition rawAnswerOf (w : World) (characterSlug message : string)
                       (pipeline : PipelineInputs) : M (option string) :=
  if AnswerController.shouldRefuse (prompt pipeline) then
    UnansweredLogger.logUnansweredQuestion w
      (mkRecord (now w) characterSlug message "empty_context") ;;
    ret (Some (refusalText pipeline))
  else
    tryCatch
      (text <- OpenAIClient.callOpenAI w
                 (AnswerController.system (prompt pipeline))
                 (AnswerController.user (prompt pipeline))
                 (conversationHistory pipeline) ;;
       ret (Some text))
      (openAIFailed w characterSlug message pipeline).

(** Lines 118 to 146 of the handler: what it does with the raw
    answer. *)
Definition afterAnswer (w : World) (characterSlug message : string)
                       (pipeline : PipelineInputs) (answered : option string) : M unit :=
  match answered with
  | None => ret tt
  | Some rawAnswer =>
      (if normalize rawAnswer =? normalize (refusalText pipeline)
       then UnansweredLogger.logUnansweredQuestion w
              (mkRecord (now w) characterSlug message "model_refusal")
       else ret tt) ;;
      let safeAnswer :=
        applySafety rawAnswer (safety pipeline)
                    (RetrievePrimary.guardrails (primary pipeline))
                    (refusalText pipeline) in
      (if normalize safeAnswer =? normalize (refusalText pipeline)
       then UnansweredLogger.logUnansweredQuestion w
              (mkRecord (now w) characterSlug message "safety_refusal")
       else ret tt) ;;
      sendJson 200 (AnswerBody safeAnswer (AnswerController.shouldRefuse (prompt pipeline)))
  end.

(** Lines 62 to 146 of the handler: what it does once the pipeline
    inputs are loaded. *)
Definition answerPipeline (w : World) (characterSlug message : string)
                          (pipeline : PipelineInputs) : M unit :=
  answered <- rawAnswerOf w characterSlug message pipeline ;;
  afterAnswer w characterSlug message pipeline answered.

Definition handleChatRequest (w : World) (req : Request) : M unit :=
  if method req =? "OPTIONS" then emit (End 204)
  else if negb (method req =? "POST") || negb (url req =? "/api/chat")
  then sendJson 404 (ErrorBody "Not found")
  else
    match (if nonEmpty (body req) then bodyJson req else Ok (VObj [])) with
    | Throw _ => sendJson 400 (ErrorBody "Invalid JSON")
    | Ok payload =>
        payloadMessage <- lift (getProp payload "message") ;;
        let message := trim (toString (orElse payloadMessage (VStr ""))) in
        payloadCharacter <- lift (getProp payload "character") ;;
        let characterSlug :=
          toLowerCase (trim (toString (orElse payloadCharacter (VStr "")))) in
        payloadHistory <- lift (getProp payload "conversationHistory") ;;
        let conversationHistory :=
          match payloadHistory with
          | Some (VArr items) => items
          | _ => []
          end in
        if negb (nonEmpty message) then sendJson 400 (ErrorBody "Missing message")
        else if negb (nonEmpty characterSlug)
        then sendJson 400 (ErrorBody "Missing character")
        else
          pipeline <- lift (loadPipelineInputs w characterSlug message conversationHistory) ;;
          answerPipeline w characterSlug message pipeline
    end.
End ChatHandler.

(* ================================================================== *)
(** * ai/pipelines/answer_controller.ts, beside the safety filter      *)
(* ================================================================== *)

(** [extractVirtueKeywords] and [isSpeculative] stand in the file
    between [asksForPersonalInfo] and [enforceSafety]. *)
Module AnswerHeuristics.
Import Js Host.





End AnswerHeuristics.

(* ================================================================== *)
(** * The vocabulary of the specification                              *)
(* ================================================================== *)

Import Js Host.

(** ** Text *)

(** [sub] occurs in [s]. *)
Definition occursIn (sub s : string) : Prop :=
  exists before after, s = before ++ sub ++ after.


Fixpoint allChars (p : ascii -> bool) (s : string) : bool :=
  match s with
  | EmptyString => true
  | String c s' => p c && allChars p s'
  end.

(** [s] is empty or starts with a character that fails [p]. *)
Definition stopsAt (p : ascii -> bool) (s : string) : bool :=
  match s with
  | EmptyString => true
  | String c _ => negb (p c)
  end.


(** ** The safety filter *)




(** A safety configuration with the given forbidden topics. *)
Definition topicsConfig (topics : list string) : AnswerController.SafetyConfig :=
  AnswerController.mkSafety (map VStr topics) "" "".

(** ** Traces *)

(** The events in which a text-generation provider takes part: a call
    of [callOpenAI] or [callGemini], or a request sent to one of the
    two services. *)
Definition isProviderEvent (e : event) : bool :=
  match e with
  | Called _ _ _ _ | Sent _ => true
  | _ => false
  end.

(** The events of the secondary provider. *)
Definition isGeminiEvent (e : event) : bool :=
  match e with
  | Called Gemini _ _ _ => true
  | Sent (GeminiGenerate _ _ _) | Sent (GeminiListModels _) => true
  | _ => false
  end.

(** All that [c] adds to the trace are events that satisfy [P]. *)
Definition emitsOnly {A} (P : event -> bool) (c : M A) : Prop :=
  forall s, exists events,
    trace (fst (c s)) = (trace s ++ events)%list /\ forallb P events = true.

(** The trace of a run only grows. *)
Abbreviation monotone := (emitsOnly (fun _ => true)).

(** [c] emits [e] before anything else. *)
Definition emitsFirst {A} (e : event) (c : M A) : Prop :=
  forall s, exists events, trace (fst (c s)) = (trace s ++ e :: events)%list.

(** ** The context of a character *)

(** The character has no knowledge file. *)
Definition noKnowledgeFiles (w : World) (characterSlug : string) : Prop :=
  forall fileName, files w ["ai"; "primary-rag"; characterSlug; fileName] = None.

(** The context that [loadPrimaryRag] builds from no knowledge at all:
    the two headers, each with the dump of the empty object. *)
Definition bareContext : string :=
  "## Identity" ++ LF ++ "{}" ++ LF ++ LF ++ "## Style" ++ LF ++ "{}" ++ LF.


(** ** The request handler *)

(** The quota class: the failure message names an exhausted quota,
    the rate-limit status 429, or the missing credentials. *)
Definition quotaClass (failure : string) : Prop :=
  occursIn "insufficient_quota" failure
  \/ occursIn "OpenAI error 429" failure
  \/ occursIn "Missing OPENAI_API_KEY" failure.

(** The log records of one request. *)
Definition recordsOf (w : World) (characterSlug message : string)
                     (reasons : list string) : list UnansweredRecord :=
  map (mkRecord (now w) characterSlug message) reasons.

(** A pipeline whose prompt was built from an empty context. *)
Definition emptyContextPipeline : PipelineRunner.PipelineInputs :=
  PipelineRunner.mkPipeline
    (AnswerController.mkPrompt "You are a hero." "Question: hello" true)
    (RetrievePrimary.mkPrimary "" (VObj []) (VStr "ghost") (VStr "ghost"))
    (topicsConfig ["war"])
    "Let us talk about something else."
    [].

(** A pipeline whose prompt was built from a context that is not
    empty. *)
Definition groundedPipeline : PipelineRunner.PipelineInputs :=
  PipelineRunner.mkPipeline
    (AnswerController.mkPrompt "You are a hero." "Question: hello" false)
    (RetrievePrimary.mkPrimary "## Identity" (VObj []) (VStr "leo") (VStr "Leo"))
    (topicsConfig ["war"])
    "Let us talk about something else."
    [].

(** A world with no file at all, where the clock reads [clock] and
    every request fails on the network. *)
Definition offlineWorld (clock : string) : World :=
  mkWorld (fun _ => None) (fun _ => None) (mkFraction 0 1) clock true
          (fun _ => RequestError (Error "getaddrinfo ENOTFOUND")).

(** A world with no file, an OpenAI key, and a network that answers
    every request with the given status and body. *)
Definition statusWorld (status : Z) (data : string) : World :=
  mkWorld (fun _ => None)
          (fun name => if name =? "OPENAI_API_KEY" then Some "sk-test" else None)
          (mkFraction 0 1) "2024-05-01T10:00:00.000Z" true
          (fun _ => Response status data (Throw (Error "Unexpected token"))).

(** A deployment with its prompt files and an OpenAI key, and with no
    knowledge directory for any character; OpenAI answers the first
    request with the text [Hi, I am Ghost!]. *)
Definition ghostWorld : World :=
  mkWorld
    (fun path =>
       if list_eq_dec string_dec path ["ai"; "prompts"; "system.txt"]
       then Some (mkFile "Stay in character." (Throw (Error "Unexpected token S")))
       else if list_eq_dec string_dec path ["ai"; "prompts"; "answer_with_rag.txt"]
       then Some (mkFile "{{context}}Q: {{question}}" (Throw (Error "Unexpected token {")))
       else if list_eq_dec string_dec path ["ai"; "prompts"; "refusal.txt"]
       then Some (mkFile "I cannot answer that." (Throw (Error "Unexpected token I")))
       else None)
    (fun name => if name =? "OPENAI_API_KEY" then Some "sk-test" else None)
    (mkFraction 0 1)
    "2024-05-01T10:00:00.000Z"
    true
    (fun _ =>
       Response 200 "(the body)"
         (Ok (VObj [("choices",
                     VArr [VObj [("message",
                                  VObj [("role", VStr "assistant");
                                        ("content", VStr "Hi, I am Ghost!")])]])]))).

(** [POST /api/chat] with the message [hello] for the character
    [ghost]. *)
Definition helloGhost : ChatHandler.Request :=
  ChatHandler.mkRequest "POST" "/api/chat"
    ("{" ++ quote "message" ++ ":" ++ quote "hello" ++ ","
         ++ quote "character" ++ ":" ++ quote "ghost" ++ "}")
    (Ok (VObj [("message", VStr "hello"); ("character", VStr "ghost")])).

(** ** The secondary provider *)

(** The status the loop of [callGemini] reads off a failed request,
    [Number(error?.statusCode || 0)]; [None] when the request gave a
    text. *)
Definition failureStatus (exchange : http_exchange) : option Z :=
  match GeminiClient.generateOutcome exchange with
  | Ok _ => None
  | Throw error =>
      Some (match statusCode error with
            | Some code => code
            | None => 0%Z
            end)
  end.

(** The model was not found: the request failed with the status 404. *)
Definition notFound (exchange : http_exchange) : Prop :=
  failureStatus exchange = Some 404%Z.

(** The request failed in any other way. *)
Definition otherFailure (exchange : http_exchange) : Prop :=
  exists status, failureStatus exchange = Some status /\ status <> 404%Z.

(** The request for a text of [model]. *)
Definition generateEvent (apiKey : string) (contents : list content_turn)
                         (model : string) : event :=
  Sent (GeminiGenerate model apiKey contents).

(** The discovery step as the trace shows it: the request for the list
    of models, and behind it nothing or one request for a text. *)
Definition discoveryEvents (apiKey : string) (contents : list content_turn)
                           (events : list event) : Prop :=
  exists retry,
    events = Sent (GeminiListModels apiKey) :: retry
    /\ (retry = [] \/ exists model, retry = [generateEvent apiKey contents model]).

(** A deployment with a Gemini key and the default model, where the
    network answers the [i]-th request with the [i]-th status of
    [statuses], and fails behind them. *)
Definition geminiWorld (statuses : list Z) : World :=
  mkWorld (fun _ => None)
          (fun name => if name =? "GEMINI_API_KEY" then Some "g-test" else None)
          (mkFraction 0 1) "2024-05-01T10:00:00.000Z" true
          (fun i =>
             match nth_error statuses i with
             | Some status =>
                 Response status "(the body)"
                   (Ok (VObj [("candidates",
                               VArr [VObj [("content",
                                            VObj [("parts",
                                                   VArr [VObj [("text", VStr "Good morning!")]])])]])]))
             | None => RequestError (Error "socket hang up")
             end).

(** ** Templates *)




(** The text has no opening brace. *)
Definition braceFree (s : string) : bool :=
  allChars (fun c => negb (AnswerController.isOpenBrace c)) s.

(** A flat token, [{{key}}], has a word for its path; a dotted one,
    [{{a.b.c}}], has a dot in it. *)
Definition isFlat (path : string) : bool := allChars isWordChar path.






(** ** White space *)

(** Every white-space character of [s] is a space, and stands before a
    character that is not white space. *)
Fixpoint singleSpaced (s : string) : bool :=
  match s with
  | EmptyString => true
  | String c s' =>
      (if isWhiteSpace c
       then (charCode c =? 32)%nat
            && match s' with
               | String c' _ => negb (isWhiteSpace c')
               | EmptyString => false
               end
       else true)
      && singleSpaced s'
  end.

(** ** Responses and log records *)


(** The record has no empty field. *)
Definition complete (r : UnansweredRecord) : bool :=
  nonEmpty (timestamp r) && nonEmpty (character r)
  && nonEmpty (Host.message r) && nonEmpty (reason r).

(** All that [c] adds to the log file are records that satisfy [P]. *)
Definition logsOnly {A} (P : UnansweredRecord -> bool) (c : M A) : Prop :=
  forall s, exists added,
    logFile (fst (c s)) = (logFile s ++ added)%list /\ forallb P added = true.

(** The reasons the handler gives for a record. *)
Definition knownReason (reason : string) : Prop :=
  In reason ["empty_context"; "model_refusal"; "safety_refusal"]
  \/ (exists failure, reason = "openai_error:" ++ failure)
  \/ (exists failure, reason = "gemini_error:" ++ failure).


(** The error [callGemini] throws when it has nothing better. *)
Definition lastErrorOr (lastError : option js_error) : js_error :=
  match lastError with
  | Some error => error
  | None => Error "Gemini failed"
  end.

(** A request sent to the primary provider. *)
Definition isOpenAIRequest (e : event) : bool :=
  match e with
  | Sent (OpenAIChat _ _ _) => true
  | _ => false
  end.



(** An entry of the list of models that the Gemini API returns. *)
Definition listedModel (name : string) (methods : list string) : value :=
  VObj [("name", VStr name); ("supportedGenerationMethods", VArr (map VStr methods))].


(** A deployment whose answer prompt is [Q: {{question}}!], and a
    question that is a placeholder for a field of the guardrails. *)
Definition curiousWorld : World :=
  mkWorld
    (fun path =>
       if list_eq_dec string_dec path ["ai"; "prompts"; "answer_with_rag.txt"]
       then Some (mkFile "Q: {{question}}!" (Throw (Error "Unexpected token Q")))
       else None)
    (fun _ => None)
    (mkFraction 0 1)
    "2024-05-01T10:00:00.000Z"
    true
    (fun _ => RequestError (Error "getaddrinfo ENOTFOUND")).

Definition curiousInput : AnswerController.RagAnswerInput :=
  AnswerController.mkInput
    "{{guardrails.tone}}"
    "## Identity"
    (Some (VStr "Leo"))
    (Some "I cannot answer that.")
    (Some (VObj [("tone", VStr "Be brave")]))
    [].

(* ================================================================== *)
(** * Properties                                                       *)
(* ================================================================== *)

(** ** Strings *)

Lemma append_empty_r (s : string) : s ++ "" = s.
Proof. induction s as [|c s IH]; simpl; [reflexivity | now rewrite IH]. Qed.

Lemma append_assoc (a b c : string) : (a ++ b) ++ c = a ++ b ++ c.
Proof. induction a as [|x a IH]; simpl; [reflexivity | now rewrite IH]. Qed.

Lemma startsWith_iff (s sub : string) :
  startsWith s sub = true <-> exists after, s = sub ++ after.
Proof.
  revert s.
  induction sub as [|c sub IH]; intros s; simpl.
  - split; [intros _; now exists s | reflexivity].
  - destruct s as [|d s]; simpl.
    + split; [discriminate | intros [after H]; discriminate].
    + destruct (Ascii.eqb_spec c d) as [->|Hcd]; simpl.
      * rewrite IH. split; intros [after H]; exists after.
        -- now rewrite H.
        -- now inversion H.
      * split; [discriminate | intros [after H]; inversion H; congruence].
Qed.

Lemma includes_iff (s sub : string) : includes s sub = true <-> occursIn sub s.
Proof.
  unfold occursIn. induction s as [|c s IH]; simpl.
  - rewrite orb_false_r, startsWith_iff. split.
    + intros [after H]. now exists "", after.
    + intros [before [after H]]. destruct before; [now exists after | discriminate].
  - rewrite orb_true_iff, startsWith_iff, IH. split.
    + intros [[after H] | [before [after H]]].
      * now exists "", after.
      * exists (String c before), after. now rewrite H.
    + intros [before [after H]]. destruct before as [|d before]; simpl in H.
      * left. now exists after.
      * right. inversion H. now exists before, after.
Qed.




(** ** The safety filter *)




(** C7. [enforceSafety] is idempotent in its answer. *)
Theorem enforceSafety_idempotent
    (x : string) (safety : AnswerController.SafetyConfig)
    (guardrails : value) (refusalText : string) :
  AnswerController.enforceSafety
    (AnswerController.enforceSafety x safety guardrails refusalText)
    safety guardrails refusalText
  = AnswerController.enforceSafety x safety guardrails refusalText.
Proof.
  unfold AnswerController.enforceSafety.
  destruct (AnswerController.containsForbiddenTopic x _) eqn:Htopic.
  - destruct (AnswerController.containsForbiddenTopic refusalText _); [reflexivity|].
    now destruct (AnswerController.asksForPersonalInfo refusalText).
  - destruct (AnswerController.asksForPersonalInfo x) eqn:Hinfo.
    + destruct (AnswerController.containsForbiddenTopic refusalText _); [reflexivity|].
      now destruct (AnswerController.asksForPersonalInfo refusalText).
    + now rewrite Htopic, Hinfo.
Qed.

(** The filter leaves the refusal text as it is. *)
Lemma enforceSafety_refusal
    (safety : AnswerController.SafetyConfig) (guardrails : value) (refusalText : string) :
  AnswerController.enforceSafety refusalText safety guardrails refusalText = refusalText.
Proof.
  unfold AnswerController.enforceSafety.
  destruct (AnswerController.containsForbiddenTopic refusalText _); [reflexivity|].
  now destruct (AnswerController.asksForPersonalInfo refusalText).
Qed.





(** ** Runs and their traces *)

Lemma emitsOnly_ret {A} (P : event -> bool) (a : A) : emitsOnly P (ret a).
Proof. intros s. exists []. now rewrite app_nil_r. Qed.

Lemma emitsOnly_throw {A} (P : event -> bool) (e : js_error) : emitsOnly P (@throw A e).
Proof. intros s. exists []. now rewrite app_nil_r. Qed.

Lemma emitsOnly_lift {A} (P : event -> bool) (r : result A) : emitsOnly P (lift r).
Proof. intros s. exists []. now rewrite app_nil_r. Qed.

Lemma emitsOnly_emit (P : event -> bool) (e : event) : P e = true -> emitsOnly P (emit e).
Proof. intros H s. exists [e]. simpl. now rewrite H. Qed.

Lemma emitsOnly_http (P : event -> bool) (w : World) (r : http_request) :
  P (Sent r) = true -> emitsOnly P (http w r).
Proof. intros H s. exists [Sent r]. simpl. now rewrite H. Qed.

Lemma emitsOnly_bind {A B} (P : event -> bool) (c : M A) (k : A -> M B) :
  emitsOnly P c -> (forall a, emitsOnly P (k a)) -> emitsOnly P (bind c k).
Proof.
  intros Hc Hk s. unfold bind. destruct (Hc s) as [e1 [H1 P1]].
  destruct (c s) as [s' [a|e]]; simpl in *; [|now exists e1].
  destruct (Hk a s') as [e2 [H2 P2]]. exists (e1 ++ e2)%list.
  now rewrite H2, H1, app_assoc, forallb_app, P1, P2.
Qed.

Lemma emitsOnly_tryCatch {A} (P : event -> bool) (c : M A) (handler : js_error -> M A) :
  emitsOnly P c -> (forall e, emitsOnly P (handler e)) -> emitsOnly P (tryCatch c handler).
Proof.
  intros Hc Hh s. unfold tryCatch. destruct (Hc s) as [e1 [H1 P1]].
  destruct (c s) as [s' [a|e]]; simpl in *; [now exists e1|].
  destruct (Hh e s') as [e2 [H2 P2]]. exists (e1 ++ e2)%list.
  now rewrite H2, H1, app_assoc, forallb_app, P1, P2.
Qed.

Lemma emitsOnly_log (P : event -> bool) (w : World) (r : UnansweredRecord) :
  P (Logged r) = true -> emitsOnly P (UnansweredLogger.logUnansweredQuestion w r).
Proof.
  intros H s. unfold UnansweredLogger.logUnansweredQuestion.
  destruct (_ || _); [|destruct (logWritable w)]; exists [Logged r]; simpl; now rewrite H.
Qed.

Create HintDb mono.

#[local] Hint Resolve emitsOnly_ret emitsOnly_throw emitsOnly_lift : mono.
#[local] Hint Extern 1 (emitsOnly _ (emit _)) =>
  (apply emitsOnly_emit; reflexivity) : mono.
#[local] Hint Extern 1 (emitsOnly _ (ChatHandler.sendJson _ _)) =>
  (apply emitsOnly_emit; reflexivity) : mono.
#[local] Hint Extern 1 (emitsOnly _ (http _ _)) =>
  (apply emitsOnly_http; reflexivity) : mono.
#[local] Hint Extern 1 (emitsOnly _ (UnansweredLogger.logUnansweredQuestion _ _)) =>
  (apply emitsOnly_log; reflexivity) : mono.

(** Break a computation down to the primitives above. *)
Ltac mono :=
  repeat first
    [ progress intros
    | progress cbv zeta
    | apply emitsOnly_bind
    | apply emitsOnly_tryCatch
    | solve [auto with mono]
    | match goal with
      | |- emitsOnly _ (if ?b then _ else _) => destruct b
      | |- emitsOnly _ (match ?x with _ => _ end) => destruct x
      end ].

Lemma emitsOnly_callOpenAI (w : World) (systemPrompt userPrompt : string) (history : list value) :
  emitsOnly (fun e => negb (isGeminiEvent e))
            (OpenAIClient.callOpenAI w systemPrompt userPrompt history).
Proof. unfold OpenAIClient.callOpenAI. mono. Qed.

Lemma emitsOnly_weaken {A} (P Q : event -> bool) (c : M A) :
  (forall e, P e = true -> Q e = true) -> emitsOnly P c -> emitsOnly Q c.
Proof.
  intros HPQ Hc s. destruct (Hc s) as [events [H HP]]. exists events. split; [assumption|].
  rewrite forallb_forall in *. auto.
Qed.

Lemma monotone_callOpenAI (w : World) (systemPrompt userPrompt : string) (history : list value) :
  monotone (OpenAIClient.callOpenAI w systemPrompt userPrompt history).
Proof. eapply emitsOnly_weaken; [|apply emitsOnly_callOpenAI]. reflexivity. Qed.

Lemma monotone_requestGemini (w : World) (model apiKey : string) (contents : list content_turn) :
  monotone (GeminiClient.requestGemini w model apiKey contents).
Proof. unfold GeminiClient.requestGemini. mono. Qed.

Lemma monotone_listGeminiModels (w : World) (apiKey : string) :
  monotone (GeminiClient.listGeminiModels w apiKey).
Proof. unfold GeminiClient.listGeminiModels. mono. Qed.

Lemma monotone_tryModels (w : World) (apiKey : string) (contents : list content_turn)
    (models : list string) (lastError : option js_error) :
  monotone (GeminiClient.tryModels w apiKey contents models lastError).
Proof.
  revert lastError.
  induction models as [|model rest IH]; intros lastError; simpl.
  - mono.
  - apply emitsOnly_tryCatch.
    + apply emitsOnly_bind; [apply monotone_requestGemini | mono].
    + intros e. destruct (negb _); [mono | apply IH].
Qed.

#[local] Hint Resolve monotone_callOpenAI monotone_requestGemini
  monotone_listGeminiModels monotone_tryModels : mono.

Lemma monotone_discoverAndRetry (w : World) (apiKey : string)
    (contents : list content_turn) (lastError : option js_error) :
  monotone (GeminiClient.discoverAndRetry w apiKey contents lastError).
Proof. unfold GeminiClient.discoverAndRetry. mono. Qed.

#[local] Hint Resolve monotone_discoverAndRetry : mono.

Lemma monotone_callGemini (w : World) (systemPrompt userPrompt : string) (history : list value) :
  monotone (GeminiClient.callGemini w systemPrompt userPrompt history).
Proof. unfold GeminiClient.callGemini. mono. Qed.

#[local] Hint Resolve monotone_callGemini : mono.

Lemma emitsFirst_emit_bind {A} (e : event) (k : unit -> M A) :
  monotone (k tt) -> emitsFirst e (bind (emit e) k).
Proof.
  intros Hk s. unfold bind, emit.
  destruct (Hk (mkState (sent s) (trace s ++ [e]) (logFile s))) as [events [H _]].
  exists events. rewrite H. simpl. now rewrite <- app_assoc.
Qed.

Lemma emitsFirst_bind {A B} (e : event) (c : M A) (k : A -> M B) :
  emitsFirst e c -> (forall a, monotone (k a)) -> emitsFirst e (bind c k).
Proof.
  intros Hc Hk s. unfold bind. destruct (Hc s) as [events H].
  destruct (c s) as [s' [a|err]]; simpl in *; [|now exists events].
  destruct (Hk a s') as [more [Hmore _]]. exists (events ++ more)%list.
  rewrite Hmore, H, <- app_assoc. reflexivity.
Qed.

Lemma emitsFirst_tryCatch {A} (e : event) (c : M A) (handler : js_error -> M A) :
  emitsFirst e c -> (forall err, monotone (handler err)) -> emitsFirst e (tryCatch c handler).
Proof.
  intros Hc Hh s. unfold tryCatch. destruct (Hc s) as [events H].
  destruct (c s) as [s' [a|err]]; simpl in *; [now exists events|].
  destruct (Hh err s') as [more [Hmore _]]. exists (events ++ more)%list.
  rewrite Hmore, H, <- app_assoc. reflexivity.
Qed.


Lemma emitsFirst_callGemini (w : World) (systemPrompt userPrompt : string) (history : list value) :
  emitsFirst (Called Gemini systemPrompt userPrompt history)
             (GeminiClient.callGemini w systemPrompt userPrompt history).
Proof.
  unfold GeminiClient.callGemini. apply emitsFirst_emit_bind. mono.
Qed.

(** ** The request handler *)

Lemma logUnansweredQuestion_run (w : World) (r : UnansweredRecord) (s : State) :
  exists lines,
    UnansweredLogger.logUnansweredQuestion w r s
    = (mkState (sent s) (trace s ++ [Logged r]) lines, Ok tt).
Proof.
  unfold UnansweredLogger.logUnansweredQuestion.
  destruct (_ || _); [|destruct (logWritable w)]; eexists; reflexivity.
Qed.

Lemma nonEmpty_true (s : string) : s <> "" -> nonEmpty s = true.
Proof. intros H. unfold nonEmpty. destruct (String.eqb_spec s ""); [contradiction|reflexivity]. Qed.

(** A record with no empty field reaches the log when the log can be
    written. *)
Lemma logUnansweredQuestion_written (w : World) (r : UnansweredRecord) (s : State) :
  timestamp r <> "" -> character r <> "" -> Host.message r <> "" -> reason r <> "" ->
  logWritable w = true ->
  UnansweredLogger.logUnansweredQuestion w r s
  = (mkState (sent s) (trace s ++ [Logged r]) (logFile s ++ [r]), Ok tt).
Proof.
  intros Ht Hc Hm Hr Hw. unfold UnansweredLogger.logUnansweredQuestion.
  now rewrite !nonEmpty_true, Hw by assumption.
Qed.

Lemma emitsOnly_afterAnswer (P : event -> bool) (w : World) (characterSlug message : string)
    (pipeline : PipelineRunner.PipelineInputs) (answered : option string) :
  (forall r, P (Logged r) = true) -> (forall status body, P (SendJson status body) = true) ->
  emitsOnly P (ChatHandler.afterAnswer w characterSlug message pipeline answered).
Proof.
  intros Hlog Hsend. unfold ChatHandler.afterAnswer, ChatHandler.sendJson. cbv zeta.
  destruct answered as [rawAnswer|]; [|auto with mono].
  apply emitsOnly_bind; [| intros _; apply emitsOnly_bind; [| intros _]];
    repeat match goal with |- emitsOnly _ (if ?b then _ else _) => destruct b end;
    first [ apply emitsOnly_log; apply Hlog
          | apply emitsOnly_emit; apply Hsend
          | apply emitsOnly_ret ].
Qed.


(** C10. On the empty-context path the handler logs three entries for
    the one request, with the reasons [empty_context], [model_refusal]
    and [safety_refusal] in this order, and answers with the refusal
    text: the raw answer is the refusal text, and so is the answer
    behind the safety filter.  With a clock, a character and a message
    that are not empty and a log that can be written, these three
    records are what the log file receives. *)
Theorem empty_context_logs_three_entries
    (w : World) (characterSlug message : string)
    (pipeline : PipelineRunner.PipelineInputs) :
  AnswerController.shouldRefuse (PipelineRunner.prompt pipeline) = true ->
  let records :=
    recordsOf w characterSlug message ["empty_context"; "model_refusal"; "safety_refusal"] in
  let final := fst (run (ChatHandler.answerPipeline w characterSlug message pipeline)) in
  trace final
  = (map Logged records
       ++ [SendJson 200 (AnswerBody (PipelineRunner.refusalText pipeline) true)])%list
  /\ (now w <> "" -> characterSlug <> "" -> message <> "" -> logWritable w = true ->
      logFile final = records).
Proof.
  intros Hrefuse. cbv zeta.
  unfold ChatHandler.answerPipeline, ChatHandler.afterAnswer, ChatHandler.rawAnswerOf,
    PipelineRunner.applySafety.
  rewrite Hrefuse. unfold run, bind, ret, ChatHandler.sendJson, emit. split.
  - destruct (logUnansweredQuestion_run w
                (mkRecord (now w) characterSlug message "empty_context") initial)
      as [l1 ->].
    rewrite enforceSafety_refusal, String.eqb_refl.
    match goal with |- context [UnansweredLogger.logUnansweredQuestion w ?r ?s] =>
      destruct (logUnansweredQuestion_run w r s) as [l2 ->] end.
    cbv beta iota.
    match goal with |- context [UnansweredLogger.logUnansweredQuestion w ?r ?s] =>
      destruct (logUnansweredQuestion_run w r s) as [l3 ->] end.
    reflexivity.
  - intros Hnow Hslug Hmessage Hwritable.
    rewrite logUnansweredQuestion_written by (simpl; (assumption || discriminate)).
    rewrite enforceSafety_refusal, String.eqb_refl.
    rewrite logUnansweredQuestion_written by (simpl; (assumption || discriminate)).
    cbv beta iota.
    rewrite logUnansweredQuestion_written by (simpl; (assumption || discriminate)).
    reflexivity.
Qed.

Lemma empty_context_logs_three_entries_witness :
  AnswerController.shouldRefuse (PipelineRunner.prompt emptyContextPipeline) = true
  /\ trace (fst (run (ChatHandler.answerPipeline (offlineWorld "2024-05-01T10:00:00.000Z")
                        "ghost" "hello" emptyContextPipeline)))
     = [Logged (mkRecord "2024-05-01T10:00:00.000Z" "ghost" "hello" "empty_context");
        Logged (mkRecord "2024-05-01T10:00:00.000Z" "ghost" "hello" "model_refusal");
        Logged (mkRecord "2024-05-01T10:00:00.000Z" "ghost" "hello" "safety_refusal");
        SendJson 200 (AnswerBody "Let us talk about something else." true)]
  /\ logFile (fst (run (ChatHandler.answerPipeline (offlineWorld "2024-05-01T10:00:00.000Z")
                          "ghost" "hello" emptyContextPipeline)))
     = [mkRecord "2024-05-01T10:00:00.000Z" "ghost" "hello" "empty_context";
        mkRecord "2024-05-01T10:00:00.000Z" "ghost" "hello" "model_refusal";
        mkRecord "2024-05-01T10:00:00.000Z" "ghost" "hello" "safety_refusal"].
Proof.
  split; [reflexivity|].
  pose proof (empty_context_logs_three_entries
                (offlineWorld "2024-05-01T10:00:00.000Z") "ghost" "hello"
                emptyContextPipeline eq_refl) as [Htrace Hlog].
  split; [exact Htrace|].
  apply Hlog; [discriminate | discriminate | discriminate | reflexivity].
Defined.

Lemma monotone_openAIFailed (w : World) (characterSlug message : string)
    (pipeline : PipelineRunner.PipelineInputs) (error : js_error) :
  monotone (ChatHandler.openAIFailed w characterSlug message pipeline error).
Proof. unfold ChatHandler.openAIFailed. mono. Qed.

#[local] Hint Resolve monotone_openAIFailed : mono.

Lemma existsb_forallb_negb {A} (P : A -> bool) (l : list A) :
  forallb (fun x => negb (P x)) l = true -> existsb P l = false.
Proof.
  induction l as [|x l IH]; simpl; [reflexivity|].
  rewrite andb_true_iff. intros [Hx Hl]. rewrite IH by assumption.
  now destruct (P x).
Qed.

Lemma shouldRefuse_context (w : World) (input : AnswerController.RagAnswerInput) :
  AnswerController.shouldRefuse (AnswerController.buildRagOnlyPrompt w input)
  = (trim (AnswerController.context input) =? "").
Proof.
  unfold AnswerController.buildRagOnlyPrompt. simpl.
  assert (H : (if nonEmpty (AnswerController.context input)
               then AnswerController.context input else "")
              = AnswerController.context input).
  { unfold nonEmpty. now destruct (String.eqb_spec (AnswerController.context input) "") as [->|]. }
  rewrite H. now destruct (trim (AnswerController.context input)).
Qed.


(** ** The fallback from the primary to the secondary provider *)

Lemma isQuotaError_iff (failure : string) :
  ChatHandler.isQuotaError failure = true <-> quotaClass failure.
Proof.
  unfold ChatHandler.isQuotaError, quotaClass.
  now rewrite !orb_true_iff, !includes_iff, or_assoc.
Qed.

Lemma callOpenAI_no_gemini (w : World) (systemPrompt userPrompt : string)
    (history : list value) :
  existsb isGeminiEvent
    (trace (fst (run (OpenAIClient.callOpenAI w systemPrompt userPrompt history)))) = false.
Proof.
  destruct (emitsOnly_callOpenAI w systemPrompt userPrompt history initial) as [events [H HP]].
  unfold run. rewrite H. simpl. now apply existsb_forallb_negb.
Qed.

(** With a context, the handler goes on from the outcome of the call of
    the primary provider. *)
Lemma answerPipeline_primary (w : World) (characterSlug message : string)
    (pipeline : PipelineRunner.PipelineInputs) :
  AnswerController.shouldRefuse (PipelineRunner.prompt pipeline) = false ->
  forall s,
    ChatHandler.answerPipeline w characterSlug message pipeline s
    = match OpenAIClient.callOpenAI w
              (AnswerController.system (PipelineRunner.prompt pipeline))
              (AnswerController.user (PipelineRunner.prompt pipeline))
              (PipelineRunner.conversationHistory pipeline) s with
      | (s1, Ok text) =>
          ChatHandler.afterAnswer w characterSlug message pipeline (Some text) s1
      | (s1, Throw error) =>
          bind (ChatHandler.openAIFailed w characterSlug message pipeline error)
               (ChatHandler.afterAnswer w characterSlug message pipeline) s1
      end.
Proof.
  intros Hflag s. unfold ChatHandler.answerPipeline, ChatHandler.rawAnswerOf.
  rewrite Hflag. unfold bind at 1. unfold tryCatch. unfold bind at 1.
  now destruct (OpenAIClient.callOpenAI w _ _ _ s) as [s1 [text|error]].
Qed.

(** C4. When the context is not empty the handler calls the primary
    provider.  If that call succeeds, the secondary provider is not
    touched.  If it fails with a message of the quota class
    ([insufficient_quota], [OpenAI error 429] or
    [Missing OPENAI_API_KEY]), [callGemini] is called.  If it fails
    with any other message, the handler logs the failure, answers 500
    with that message, and stops: nothing of the secondary provider is
    in the trace. *)
Theorem fallback_only_on_quota_class
    (w : World) (characterSlug message : string)
    (pipeline : PipelineRunner.PipelineInputs) :
  AnswerController.shouldRefuse (PipelineRunner.prompt pipeline) = false ->
  let systemPrompt := AnswerController.system (PipelineRunner.prompt pipeline) in
  let userPrompt := AnswerController.user (PipelineRunner.prompt pipeline) in
  let history := PipelineRunner.conversationHistory pipeline in
  let primaryCall := run (OpenAIClient.callOpenAI w systemPrompt userPrompt history) in
  let final := fst (run (ChatHandler.answerPipeline w characterSlug message pipeline)) in
  match snd primaryCall with
  | Ok _ => existsb isGeminiEvent (trace final) = false
  | Throw error =>
      let openAiMessage := ChatHandler.messageOr error "OpenAI failed" in
      (quotaClass openAiMessage ->
       In (Called Gemini systemPrompt userPrompt history) (trace final))
      /\ (~ quotaClass openAiMessage ->
          trace final
          = (trace (fst primaryCall)
               ++ [Logged (mkRecord (now w) characterSlug message
                                    ("openai_error:" ++ openAiMessage));
                   SendJson 500 (ErrorBody ("OpenAI failed: " ++ openAiMessage))])%list
          /\ existsb isGeminiEvent (trace final) = false)
  end.
Proof.
  intros Hflag. cbv zeta.
  pose proof (callOpenAI_no_gemini w
                (AnswerController.system (PipelineRunner.prompt pipeline))
                (AnswerController.user (PipelineRunner.prompt pipeline))
                (PipelineRunner.conversationHistory pipeline)) as Hquiet.
  unfold run in *.
  rewrite (answerPipeline_primary w characterSlug message pipeline Hflag initial).
  destruct (OpenAIClient.callOpenAI w _ _ _ initial) as [s1 [text|error]];
    cbn [fst snd] in Hquiet |- *.
  - destruct (emitsOnly_afterAnswer (fun e => negb (isGeminiEvent e)) w characterSlug message
                pipeline (Some text) ltac:(reflexivity) ltac:(reflexivity) s1)
      as [events [-> HP]].
    rewrite existsb_app, Hquiet. now apply existsb_forallb_negb.
  - unfold ChatHandler.openAIFailed. cbv zeta. split.
    + intros Hquota. apply isQuotaError_iff in Hquota. rewrite Hquota. simpl negb. cbv iota.
      match goal with |- context [bind ?c _ s1] =>
        assert (Hfirst : emitsFirst
                  (Called Gemini
                     (AnswerController.system (PipelineRunner.prompt pipeline))
                     (AnswerController.user (PipelineRunner.prompt pipeline))
                     (PipelineRunner.conversationHistory pipeline)) c)
          by (apply emitsFirst_tryCatch;
              [ apply emitsFirst_bind; [apply emitsFirst_callGemini | mono] | mono ]);
        unfold bind at 1;
        destruct (Hfirst s1) as [events H]; destruct (c s1) as [s2 [answered|e]]
      end; cbn [fst snd] in H |- *.
      * destruct (emitsOnly_afterAnswer (fun _ => true) w characterSlug message pipeline
                    answered ltac:(reflexivity) ltac:(reflexivity) s2) as [more [-> _]].
        rewrite H. apply in_or_app. left. apply in_or_app. right. now left.
      * rewrite H. apply in_or_app. right. now left.
    + intros Hfatal.
      assert (Hno : ChatHandler.isQuotaError (ChatHandler.messageOr error "OpenAI failed") = false).
      { destruct (ChatHandler.isQuotaError _) eqn:E; [|reflexivity].
        apply isQuotaError_iff in E. contradiction. }
      rewrite Hno. simpl negb. cbv iota.
      unfold bind, ChatHandler.sendJson, emit, ret.
      match goal with |- context [UnansweredLogger.logUnansweredQuestion w ?r ?s] =>
        destruct (logUnansweredQuestion_run w r s) as [lines ->] end.
      simpl. rewrite <- app_assoc. split; [reflexivity|].
      now rewrite existsb_app, Hquiet.
Qed.

Lemma fallback_only_on_quota_class_witness :
  AnswerController.shouldRefuse (PipelineRunner.prompt groundedPipeline) = false
  /\ ~ quotaClass "OpenAI error 500: overloaded"
  /\ trace (fst (run (ChatHandler.answerPipeline (statusWorld 500 "overloaded")
                        "leo" "hello" groundedPipeline)))
     = [Called OpenAI "You are a hero." "Question: hello" [];
        Sent (OpenAIChat "sk-test" "gpt-4o-mini"
                [OpenAIClient.chatMessage "system" "You are a hero.";
                 OpenAIClient.chatMessage "user" "Question: hello"]);
        Logged (mkRecord "2024-05-01T10:00:00.000Z" "leo" "hello"
                         "openai_error:OpenAI error 500: overloaded");
        SendJson 500 (ErrorBody "OpenAI failed: OpenAI error 500: overloaded")].
Proof.
  assert (Hfatal : ~ quotaClass "OpenAI error 500: overloaded").
  { rewrite <- isQuotaError_iff. vm_compute. discriminate. }
  split; [reflexivity|]. split; [exact Hfatal|].
  exact (proj1 (proj2 (fallback_only_on_quota_class
                         (statusWorld 500 "overloaded") "leo" "hello"
                         groundedPipeline eq_refl) Hfatal)).
Defined.

(** ** The context of a character *)

Lemma trim_starts_with_text (c : ascii) (s : string) :
  isWhiteSpace c = false -> trim (String c s) <> "".
Proof.
  intros Hc. unfold trim. simpl. rewrite Hc. simpl.
  destruct (trimEnd s); [rewrite Hc|]; discriminate.
Qed.

Lemma filterBoolean_section (title : string) (data : value) (rest : list string) :
  filterBoolean (RetrievePrimary.formatSection title data :: rest)
  = RetrievePrimary.formatSection title data :: filterBoolean rest.
Proof. reflexivity. Qed.

Lemma join_section (sep title : string) (data : value) (rest : list string) :
  exists tail, join sep (RetrievePrimary.formatSection title data :: rest) = String "#" tail.
Proof. unfold RetrievePrimary.formatSection. destruct rest; eexists; reflexivity. Qed.

(** The context is made of the Identity section, the Style section,
    and the other sections that are not empty. *)
Lemma loadPrimaryRag_context (w : World) (characterSlug : string)
    (r : RetrievePrimary.PrimaryRagResult) :
  RetrievePrimary.loadPrimaryRag w characterSlug = Ok r ->
  exists others,
    RetrievePrimary.context r
    = join LF
        (RetrievePrimary.formatSection "Identity"
           (RetrievePrimary.readJsonSafe w
              ["ai"; "primary-rag"; characterSlug; "identity.json"])
         :: RetrievePrimary.formatSection "Style"
              (RetrievePrimary.readJsonSafe w
                 ["ai"; "primary-rag"; characterSlug; "style.json"])
         :: others).
Proof.
  unfold RetrievePrimary.loadPrimaryRag. cbv zeta. intros H.
  cbv beta delta [bindR] in H.
  repeat match type of H with
         | match ?c with _ => _ end = _ => destruct c; [|discriminate]
         end.
  match type of H with
  | Ok ?built = Ok r =>
      assert (Hr : RetrievePrimary.context r = RetrievePrimary.context built)
        by (f_equal; congruence)
  end.
  rewrite Hr. unfold RetrievePrimary.context.
  rewrite !filterBoolean_section. eexists. reflexivity.
Qed.

(** C2. Whatever the knowledge files of a character hold, the context
    that [loadPrimaryRag] returns has the Identity section and the Style
    section, a header and the dump of the document each, and so is not
    empty after trimming: the [shouldRefuse] flag that
    [buildRagOnlyPrompt] computes from this context is false.  For a
    character with no knowledge file, [loadPrimaryRag] does return, and
    the context is the two headers with the dump of an empty object. *)
Theorem loadPrimaryRag_context_never_empty (w : World) (characterSlug : string) :
  (forall r,
     RetrievePrimary.loadPrimaryRag w characterSlug = Ok r ->
     (exists others,
        RetrievePrimary.context r
        = join LF
            (RetrievePrimary.formatSection "Identity"
               (RetrievePrimary.readJsonSafe w
                  ["ai"; "primary-rag"; characterSlug; "identity.json"])
             :: RetrievePrimary.formatSection "Style"
                  (RetrievePrimary.readJsonSafe w
                     ["ai"; "primary-rag"; characterSlug; "style.json"])
             :: others))
     /\ trim (RetrievePrimary.context r) <> ""
     /\ forall w' input,
          AnswerController.context input = RetrievePrimary.context r ->
          AnswerController.shouldRefuse (AnswerController.buildRagOnlyPrompt w' input) = false)
  /\ (noKnowledgeFiles w characterSlug ->
      RetrievePrimary.loadPrimaryRag w characterSlug
      = Ok (RetrievePrimary.mkPrimary bareContext (VObj [])
              (VStr characterSlug) (VStr characterSlug))).
Proof.
  split.
  - intros r Hr. pose proof (loadPrimaryRag_context w characterSlug r Hr) as Hsections.
    assert (Htrim : trim (RetrievePrimary.context r) <> "").
    { destruct Hsections as [others ->].
      destruct (join_section LF "Identity"
                  (RetrievePrimary.readJsonSafe w
                     ["ai"; "primary-rag"; characterSlug; "identity.json"])
                  (RetrievePrimary.formatSection "Style"
                     (RetrievePrimary.readJsonSafe w
                        ["ai"; "primary-rag"; characterSlug; "style.json"])
                   :: others)) as [tail ->].
      now apply trim_starts_with_text. }
    split; [exact Hsections|]. split; [exact Htrim|].
    intros w' input Hinput. rewrite shouldRefuse_context, Hinput.
    now destruct (String.eqb_spec (trim (RetrievePrimary.context r)) "").
  - intros Hnone. unfold RetrievePrimary.loadPrimaryRag, RetrievePrimary.readJsonSafe.
    cbn [app]. now rewrite !Hnone.
Qed.

Lemma loadPrimaryRag_context_never_empty_witness :
  RetrievePrimary.loadPrimaryRag (offlineWorld "2024-05-01T10:00:00.000Z") "ghost"
  = Ok (RetrievePrimary.mkPrimary bareContext (VObj []) (VStr "ghost") (VStr "ghost"))
  /\ trim bareContext <> "".
Proof.
  split; [reflexivity|].
  exact (proj1 (proj2 (proj1 (loadPrimaryRag_context_never_empty
                                (offlineWorld "2024-05-01T10:00:00.000Z") "ghost")
                             (RetrievePrimary.mkPrimary bareContext (VObj [])
                                (VStr "ghost") (VStr "ghost"))
                             eq_refl))).
Defined.


(** C1, at the input where the code departs from it.  The character
    [ghost] has no knowledge file, and the request is served all the
    same: the context holds the two section headers, [callOpenAI] is
    called and sends its request, and the response carries the generated
    text with [shouldRefuse] false.  Nothing is logged. *)
Theorem no_knowledge_files_reach_the_provider :
  noKnowledgeFiles ghostWorld "ghost"
  /\ run (ChatHandler.handleChatRequest ghostWorld helloGhost)
     = (mkState 1
          [Called OpenAI "Stay in character." (trim bareContext ++ "Q: hello") [];
           Sent (OpenAIChat "sk-test" "gpt-4o-mini"
                   [OpenAIClient.chatMessage "system" "Stay in character.";
                    OpenAIClient.chatMessage "user" (trim bareContext ++ "Q: hello")]);
           SendJson 200 (AnswerBody "Hi, I am Ghost!" false)]
          [],
        Ok tt).
Proof.
  split; [|reflexivity].
  intros fileName. unfold ghostWorld. cbn [files].
  repeat match goal with
         | |- context [list_eq_dec string_dec ?a ?b] =>
             destruct (list_eq_dec string_dec a b); [discriminate|]
         end.
  reflexivity.
Qed.

(** ** The candidate models of the secondary provider *)

Lemma tryModels_cons (w : World) (apiKey : string) (contents : list content_turn)
    (model : string) (rest : list string) (lastError : option js_error) (s : State) :
  GeminiClient.tryModels w apiKey contents (model :: rest) lastError s
  = let s1 := mkState (S (sent s)) (trace s ++ [generateEvent apiKey contents model])
                      (logFile s) in
    match GeminiClient.generateOutcome (network w (sent s)) with
    | Ok text => (s1, Ok (GeminiClient.Returned text))
    | Throw error =>
        if negb (match statusCode error with Some code => code | None => 0%Z end =? 404)%Z
        then (s1, Ok (GeminiClient.Fell (Some error)))
        else GeminiClient.tryModels w apiKey contents rest (Some error) s1
    end.
Proof.
  simpl. unfold tryCatch, bind, GeminiClient.requestGemini, bind, http, lift. cbv zeta.
  destruct (GeminiClient.generateOutcome (network w (sent s))) as [text|error];
    [reflexivity|].
  now destruct (negb _).
Qed.

(** While the answers are 404, the loop goes from one candidate to the
    next. *)
Lemma tryModels_skip (w : World) (apiKey : string) (contents : list content_turn)
    (i : nat) :
  forall (models : list string) (lastError : option js_error) (s : State),
    i <= List.length models ->
    (forall j, j < i -> notFound (network w (sent s + j))) ->
    exists lastError',
      GeminiClient.tryModels w apiKey contents models lastError s
      = GeminiClient.tryModels w apiKey contents (skipn i models) lastError'
          (mkState (sent s + i)
                   (trace s ++ map (generateEvent apiKey contents) (firstn i models))
                   (logFile s)).
Proof.
  induction i as [|i IH]; intros models lastError s Hlen Hnf.
  - exists lastError. simpl. rewrite Nat.add_0_r, app_nil_r. now destruct s.
  - destruct models as [|model rest]; [simpl in Hlen; lia|].
    rewrite tryModels_cons. cbv zeta.
    pose proof (Hnf 0 ltac:(lia)) as H0. rewrite Nat.add_0_r in H0.
    unfold notFound, failureStatus in H0.
    destruct (GeminiClient.generateOutcome (network w (sent s))) as [text|error];
      [discriminate|].
    injection H0 as H0. rewrite H0. simpl negb. cbv iota.
    edestruct (IH rest (Some error)
                 (mkState (S (sent s)) (trace s ++ [generateEvent apiKey contents model])
                          (logFile s))) as [lastError' H].
    + simpl in Hlen. lia.
    + intros j Hj. cbn [sent]. replace (S (sent s) + j) with (sent s + S j) by lia.
      apply Hnf. lia.
    + exists lastError'. rewrite H. cbn [sent trace logFile skipn firstn map].
      rewrite <- app_assoc. cbn [app]. do 2 f_equal. lia.
Qed.

Lemma candidateModels_NoDup (w : World) : NoDup (GeminiClient.candidateModels w).
Proof.
  unfold GeminiClient.candidateModels. cbv zeta.
  generalize (envOr w "GEMINI_MODEL" GeminiClient.DEFAULT_GEMINI_MODEL). intros c.
  unfold GeminiClient.unique, GeminiClient.indexOf, GeminiClient.DEFAULT_GEMINI_MODEL,
    GeminiClient.FALLBACK_MODELS.
  cbn [List.length seq combine filter map fst snd GeminiClient.indexOfFrom].
  rewrite String.eqb_refl. cbn [Nat.eqb filter map fst snd].
  destruct (String.eqb_spec c "gemini-1.5-flash") as [H1|H1];
    destruct (String.eqb_spec c "gemini-1.5-pro") as [H2|H2];
    destruct (String.eqb_spec c "gemini-1.0-pro") as [H3|H3];
    try congruence;
    cbn; repeat constructor; cbn; intuition (try discriminate; congruence).
Qed.

Lemma emitsFirst_http_bind {A} (w : World) (r : http_request) (k : http_exchange -> M A) :
  (forall x, monotone (k x)) -> emitsFirst (Sent r) (bind (http w r) k).
Proof.
  intros Hk s. unfold bind, http.
  destruct (Hk (network w (sent s))
               (mkState (S (sent s)) (trace s ++ [Sent r]) (logFile s))) as [events [H _]].
  exists events. rewrite H. simpl. now rewrite <- app_assoc.
Qed.

(** The discovery step sends the request for the list of models, and
    retries once at most. *)
Lemma discoverAndRetry_trace (w : World) (apiKey : string)
    (contents : list content_turn) (lastError : option js_error) (s : State) :
  exists events,
    trace (fst (GeminiClient.discoverAndRetry w apiKey contents lastError s))
    = (trace s ++ events)%list
    /\ discoveryEvents apiKey contents events.
Proof.
  unfold GeminiClient.discoverAndRetry, GeminiClient.listGeminiModels,
    GeminiClient.requestGemini, discoveryEvents, generateEvent.
  unfold bind, tryCatch, http, lift, ret, throw. cbn [sent trace logFile fst snd].
  destruct (GeminiClient.listOutcome (network w (sent s))) as [available|error];
    cbv zeta beta iota.
  - destruct (match find _ GeminiClient.PREFERRED_MODELS with
              | Some model => if nonEmpty model then Some model else hd_error available
              | None => hd_error available
              end) as [model|].
    + destruct (nonEmpty model).
      * cbn [sent trace logFile fst snd].
        destruct (GeminiClient.generateOutcome (network w (S (sent s)))) as [text|error];
          cbn [fst trace]; rewrite <- app_assoc; eexists; (split; [reflexivity|]);
          eexists; (split; [reflexivity|]); right; eexists; reflexivity.
      * destruct lastError; cbn [fst trace]; eexists; (split; [reflexivity|]);
          eexists; (split; [reflexivity|]); now left.
    + destruct lastError; cbn [fst trace]; eexists; (split; [reflexivity|]);
        eexists; (split; [reflexivity|]); now left.
  - cbn [fst trace]. eexists. split; [reflexivity|]. eexists. split; [reflexivity|]. now left.
Qed.

(** [callGemini] with a key: the loop from the first candidate, and the
    discovery step when the loop falls through. *)
Lemma callGemini_run (w : World) (systemPrompt userPrompt : string) (history : list value) :
  envOr w "GEMINI_API_KEY" "" <> "" ->
  run (GeminiClient.callGemini w systemPrompt userPrompt history)
  = match GeminiClient.tryModels w (envOr w "GEMINI_API_KEY" "")
            (GeminiClient.buildContents systemPrompt userPrompt history)
            (GeminiClient.candidateModels w) None
            (mkState 0 [Called Gemini systemPrompt userPrompt history] []) with
    | (s1, Ok (GeminiClient.Returned text)) => (s1, Ok text)
    | (s1, Ok (GeminiClient.Fell lastError)) =>
        GeminiClient.discoverAndRetry w (envOr w "GEMINI_API_KEY" "")
          (GeminiClient.buildContents systemPrompt userPrompt history) lastError s1
    | (s1, Throw error) => (s1, Throw error)
    end.
Proof.
  intros Hkey. unfold GeminiClient.callGemini, run. cbv zeta.
  rewrite (nonEmpty_true _ Hkey). simpl negb. cbv iota.
  unfold bind at 1. unfold emit. cbv beta iota. unfold bind at 1.
  change (trace initial ++ [Called Gemini systemPrompt userPrompt history])%list
    with [Called Gemini systemPrompt userPrompt history].
  change (sent initial) with 0. change (logFile initial) with (@nil UnansweredRecord).
  destruct (GeminiClient.tryModels _ _ _ _ _ _) as [s1 [[text|lastError]|error]]; reflexivity.
Qed.

Lemma firstn_S_nth {A} (l : list A) (i : nat) (x : A) :
  nth_error l i = Some x -> firstn (S i) l = (firstn i l ++ [x])%list.
Proof.
  revert l. induction i as [|i IH]; intros [|y l] H; simpl in H; try discriminate.
  - now injection H as ->.
  - change (firstn (S (S i)) (y :: l)) with (y :: firstn (S i) l).
    change (firstn (S i) (y :: l)) with (y :: firstn i l).
    rewrite (IH l H). reflexivity.
Qed.

Lemma skipn_nth {A} (l : list A) (i : nat) (x : A) :
  nth_error l i = Some x -> skipn i l = x :: skipn (S i) l.
Proof.
  revert l. induction i as [|i IH]; intros [|y l] H; simpl in H; try discriminate.
  - now injection H as ->.
  - cbn [skipn]. now apply IH.
Qed.

(** The run of [callGemini] when the candidates before the [i]-th were
    not found: the [i]-th is asked, and its answer decides. *)
Lemma callGemini_at (w : World) (systemPrompt userPrompt : string) (history : list value)
    (i : nat) (model : string) :
  envOr w "GEMINI_API_KEY" "" <> "" ->
  let apiKey := envOr w "GEMINI_API_KEY" "" in
  let contents := GeminiClient.buildContents systemPrompt userPrompt history in
  let models := GeminiClient.candidateModels w in
  nth_error models i = Some model ->
  (forall j, j < i -> notFound (network w j)) ->
  let asked :=
    mkState (S i)
            (Called Gemini systemPrompt userPrompt history
               :: map (generateEvent apiKey contents) (firstn (S i) models))
            [] in
  run (GeminiClient.callGemini w systemPrompt userPrompt history)
  = match GeminiClient.generateOutcome (network w i) with
    | Ok text => (asked, Ok text)
    | Throw error =>
        if negb (match statusCode error with Some code => code | None => 0%Z end =? 404)%Z
        then GeminiClient.discoverAndRetry w apiKey contents (Some error) asked
        else
          match GeminiClient.tryModels w apiKey contents (skipn (S i) models)
                  (Some error) asked with
          | (s1, Ok (GeminiClient.Returned text)) => (s1, Ok text)
          | (s1, Ok (GeminiClient.Fell lastError)) =>
              GeminiClient.discoverAndRetry w apiKey contents lastError s1
          | (s1, Throw e) => (s1, Throw e)
          end
    end.
Proof.
  intros Hkey apiKey contents models Hnth Hnf asked.
  rewrite (callGemini_run w systemPrompt userPrompt history Hkey).
  fold apiKey contents models.
  assert (Hlen : i <= List.length models).
  { apply Nat.lt_le_incl. apply nth_error_Some. congruence. }
  destruct (tryModels_skip w apiKey contents i models None
              (mkState 0 [Called Gemini systemPrompt userPrompt history] []) Hlen)
    as [lastError' H]; [exact Hnf|].
  rewrite H. cbn [sent trace logFile]. rewrite (skipn_nth _ _ _ Hnth), tryModels_cons.
  cbv zeta. cbn [sent trace logFile plus].
  replace (([Called Gemini systemPrompt userPrompt history]
              ++ map (generateEvent apiKey contents) (firstn i models))
             ++ [generateEvent apiKey contents model])%list
    with (trace asked).
  2:{ unfold asked. cbn [trace]. rewrite (firstn_S_nth _ _ _ Hnth), map_app. reflexivity. }
  change (mkState (S i) (trace asked) []) with asked.
  destruct (GeminiClient.generateOutcome (network w i)) as [text|error]; [reflexivity|].
  destruct (negb _); reflexivity.
Qed.

(** C3, as the code has it.  With a key, [callGemini] asks the
    candidate models in the order of the list, in which no model comes
    twice.  The candidate [i] is asked when all the candidates before it
    were answered with the status 404.  If it gives a text, this text is
    the result and nothing else is sent.  If it fails with a status
    other than 404, no further candidate is asked and the discovery step
    follows: the request for the list of models and one retry at most,
    so the discovery step follows a failure of this kind too.  If every
    candidate was answered with 404, the discovery step follows the last
    of them. *)
Theorem callGemini_candidates_then_discovery
    (w : World) (systemPrompt userPrompt : string) (history : list value) :
  envOr w "GEMINI_API_KEY" "" <> "" ->
  let apiKey := envOr w "GEMINI_API_KEY" "" in
  let contents := GeminiClient.buildContents systemPrompt userPrompt history in
  let models := GeminiClient.candidateModels w in
  let outcome := run (GeminiClient.callGemini w systemPrompt userPrompt history) in
  let asked n :=
    Called Gemini systemPrompt userPrompt history
      :: map (generateEvent apiKey contents) (firstn n models) in
  NoDup models
  /\ (forall i model,
        nth_error models i = Some model ->
        (forall j, j < i -> notFound (network w j)) ->
        (exists more, trace (fst outcome) = (asked (S i) ++ more)%list)
        /\ (forall text,
              GeminiClient.generateOutcome (network w i) = Ok text ->
              outcome = (mkState (S i) (asked (S i)) [], Ok text))
        /\ (otherFailure (network w i) ->
            exists events,
              trace (fst outcome) = (asked (S i) ++ events)%list
              /\ discoveryEvents apiKey contents events))
  /\ ((forall j, j < List.length models -> notFound (network w j)) ->
      exists events,
        trace (fst outcome) = (asked (List.length models) ++ events)%list
        /\ discoveryEvents apiKey contents events).
Proof.
  intros Hkey apiKey contents models outcome asked.
  split; [apply candidateModels_NoDup|]. split.
  - intros i model Hnth Hnf.
    pose proof (callGemini_at w systemPrompt userPrompt history i model Hkey Hnth Hnf) as Hrun.
    cbv zeta in Hrun. fold apiKey contents models outcome in Hrun.
    change (Called Gemini systemPrompt userPrompt history
              :: map (generateEvent apiKey contents) (firstn (S i) models))
      with (asked (S i)) in Hrun.
    set (state := mkState (S i) (asked (S i)) []) in Hrun.
    split; [|split].
    + rewrite Hrun.
      destruct (GeminiClient.generateOutcome (network w i)) as [text|error].
      * exists []. cbn [fst trace state]. now rewrite app_nil_r.
      * destruct (negb _).
        -- destruct (monotone_discoverAndRetry w apiKey contents (Some error) state)
             as [more [H _]]. now exists more.
        -- destruct (monotone_tryModels w apiKey contents (skipn (S i) models)
                       (Some error) state) as [more1 [H1 _]].
           destruct (GeminiClient.tryModels _ _ _ _ _ state)
             as [s1 [[text|lastError]|e]]; cbn [fst] in H1 |- *; try now exists more1.
           destruct (monotone_discoverAndRetry w apiKey contents lastError s1)
             as [more2 [H2 _]].
           exists (more1 ++ more2)%list. rewrite H2, H1, app_assoc. reflexivity.
    + intros text Htext. rewrite Hrun, Htext. reflexivity.
    + intros [status [Hstatus Hother]]. unfold failureStatus in Hstatus. rewrite Hrun.
      destruct (GeminiClient.generateOutcome (network w i)) as [text|error];
        [discriminate|].
      injection Hstatus as Hstatus. rewrite Hstatus.
      destruct (Z.eqb_spec status 404) as [|_]; [contradiction|]. simpl negb. cbv iota.
      apply (discoverAndRetry_trace w apiKey contents (Some error) state).
  - intros Hnf. unfold outcome.
    rewrite (callGemini_run w systemPrompt userPrompt history Hkey).
    fold apiKey contents models.
    destruct (tryModels_skip w apiKey contents (List.length models) models None
                (mkState 0 [Called Gemini systemPrompt userPrompt history] [])
                (Nat.le_refl _) Hnf) as [lastError' ->].
    rewrite skipn_all. cbn [GeminiClient.tryModels ret sent trace logFile plus app].
    apply (discoverAndRetry_trace w apiKey contents lastError'
             (mkState (List.length models) (asked (List.length models)) [])).
Qed.

(** C3 as stated fails: after a failure that is not a 404 the loop over
    the candidates is left, and the discovery step runs all the same.
    Here the first candidate is answered with the status 500; the two
    other candidates are never asked, and the next request is the one
    for the list of models. *)
Lemma callGemini_discovery_after_abort :
  GeminiClient.candidateModels (geminiWorld [500%Z])
  = ["gemini-1.5-flash"; "gemini-1.5-pro"; "gemini-1.0-pro"]
  /\ failureStatus (network (geminiWorld [500%Z]) 0) = Some 500%Z
  /\ trace (fst (run (GeminiClient.callGemini (geminiWorld [500%Z]) "system" "user" [])))
     = [Called Gemini "system" "user" [];
        Sent (GeminiGenerate "gemini-1.5-flash" "g-test"
                [mkTurn "user" "system"; mkTurn "user" "user"]);
        Sent (GeminiListModels "g-test")].
Proof. repeat split. Qed.

Lemma callGemini_candidates_then_discovery_witness :
  envOr (geminiWorld [404%Z; 200%Z]) "GEMINI_API_KEY" "" <> ""
  /\ notFound (network (geminiWorld [404%Z; 200%Z]) 0)
  /\ run (GeminiClient.callGemini (geminiWorld [404%Z; 200%Z]) "system" "user" [])
     = (mkState 2
          [Called Gemini "system" "user" [];
           Sent (GeminiGenerate "gemini-1.5-flash" "g-test"
                   [mkTurn "user" "system"; mkTurn "user" "user"]);
           Sent (GeminiGenerate "gemini-1.5-pro" "g-test"
                   [mkTurn "user" "system"; mkTurn "user" "user"])]
          [],
        Ok "Good morning!").
Proof.
  assert (Hkey : envOr (geminiWorld [404%Z; 200%Z]) "GEMINI_API_KEY" "" <> "")
    by discriminate.
  assert (Hfirst : notFound (network (geminiWorld [404%Z; 200%Z]) 0)) by reflexivity.
  split; [exact Hkey|]. split; [exact Hfirst|].
  refine (proj1 (proj2 (proj1 (proj2 (callGemini_candidates_then_discovery
                                        (geminiWorld [404%Z; 200%Z]) "system" "user" [] Hkey))
                              1 "gemini-1.5-pro" eq_refl _))
                "Good morning!" eq_refl).
  intros j Hj. assert (j = 0) as -> by lia. exact Hfirst.
Defined.

(** ** Template rendering *)

Lemma whiteSpace_not_path (c : ascii) : isWhiteSpace c = true -> isPathChar c = false.
Proof. destruct c as [[] [] [] [] [] [] [] []]; vm_compute; congruence. Qed.



Lemma word_is_path (c : ascii) : isWordChar c = true -> isPathChar c = true.
Proof. unfold isPathChar. now intros ->. Qed.


Lemma allChars_weaken (p q : ascii -> bool) (s : string) :
  (forall c, p c = true -> q c = true) -> allChars p s = true -> allChars q s = true.
Proof.
  intros Hpq. induction s as [|c s IH]; simpl; [reflexivity|].
  rewrite !andb_true_iff. intros [Hc Hs]. auto.
Qed.

(** A greedy [p*] takes a run of [p] characters whole when what follows
    does not go on with one. *)
Lemma span_run (p : ascii -> bool) (x y : string) :
  allChars p x = true -> stopsAt p y = true -> span p (x ++ y) = (x, y).
Proof.
  intros Hx Hy. induction x as [|c x IH].
  - destruct y as [|d y]; [reflexivity|]. simpl in *.
    destruct (p d); simpl in Hy; [discriminate | reflexivity].
  - simpl in *. apply andb_true_iff in Hx as [Hc Hx]. now rewrite Hc, IH.
Qed.


Lemma length_append (a b : string) :
  String.length (a ++ b) = String.length a + String.length b.
Proof. induction a as [|c a IH]; simpl; [reflexivity | now rewrite IH]. Qed.

Lemma replaceTokens_step (K : ascii -> bool) (f : string -> string) (c : ascii) (s : string) :
  AnswerController.replaceTokens K f 0 (String c s)
  = match AnswerController.matchToken K (String c s) with
    | Some (key, rest) =>
        f key ++ AnswerController.replaceTokens K f (String.length s - String.length rest) s
    | None => String c (AnswerController.replaceTokens K f 0 s)
    end.
Proof. reflexivity. Qed.

Lemma replaceTokens_skip (K : ascii -> bool) (f : string -> string) (mid rest : string) :
  AnswerController.replaceTokens K f (String.length mid) (mid ++ rest)
  = AnswerController.replaceTokens K f 0 rest.
Proof.
  induction mid as [|c mid IH]; [now destruct rest|].
  cbn [String.length append AnswerController.replaceTokens]. exact IH.
Qed.

(** No match starts at a character that is not an opening brace, nor
    at a brace that no second brace follows. *)
Lemma matchToken_not_open (K : ascii -> bool) (c : ascii) (s : string) :
  AnswerController.isOpenBrace c = false ->
  AnswerController.matchToken K (String c s) = None.
Proof. intros H. unfold AnswerController.matchToken. destruct s; [reflexivity|]. now rewrite H. Qed.


(** Text without an opening brace goes through a pass unchanged. *)
Lemma replaceTokens_literal (K : ascii -> bool) (f : string -> string) (text rest : string) :
  braceFree text = true ->
  AnswerController.replaceTokens K f 0 (text ++ rest)
  = text ++ AnswerController.replaceTokens K f 0 rest.
Proof.
  unfold braceFree. induction text as [|c text IH]; intros H; [reflexivity|].
  simpl in H. apply andb_true_iff in H as [Hc H]. apply negb_true_iff in Hc.
  cbn [append]. rewrite replaceTokens_step, matchToken_not_open by assumption.
  now rewrite IH.
Qed.

Lemma stopsAt_key (K : ascii -> bool) (key tail : string) :
  (forall c, K c = true -> isPathChar c = true) ->
  nonEmpty key = true -> allChars K key = true ->
  stopsAt isWhiteSpace (key ++ tail) = true.
Proof.
  intros HK Hne Hkey. destruct key as [|c key]; [discriminate|].
  simpl in *. apply andb_true_iff in Hkey as [Hc _]. apply HK in Hc.
  destruct (isWhiteSpace c) eqn:Hws; [|reflexivity].
  apply whiteSpace_not_path in Hws. congruence.
Qed.

Lemma stopsAt_closing (K : ascii -> bool) (after rest : string) :
  (forall c, K c = true -> isPathChar c = true) ->
  allChars isWhiteSpace after = true ->
  stopsAt K (after ++ "}}" ++ rest) = true.
Proof.
  intros HK Hafter. destruct after as [|c after]; simpl in *.
  - destruct (K "}"%char) eqn:E; [|reflexivity]. apply HK in E. discriminate.
  - apply andb_true_iff in Hafter as [Hc _].
    destruct (K c) eqn:E; [|reflexivity]. apply HK in E.
    apply whiteSpace_not_path in Hc. congruence.
Qed.

(** A token matches where it stands. *)
Lemma matchToken_token (K : ascii -> bool) (before key after rest : string) :
  (forall c, K c = true -> isPathChar c = true) ->
  allChars isWhiteSpace before = true -> allChars isWhiteSpace after = true ->
  nonEmpty key = true -> allChars K key = true ->
  AnswerController.matchToken K ("{{" ++ before ++ key ++ after ++ "}}" ++ rest)
  = Some (key, rest).
Proof.
  intros HK Hb Ha Hne Hkey.
  change ("{{" ++ before ++ key ++ after ++ "}}" ++ rest)
    with (String "{" (String "{" (before ++ key ++ after ++ "}}" ++ rest))).
  unfold AnswerController.matchToken.
  change (AnswerController.isOpenBrace "{") with true. cbn [andb].
  rewrite (span_run isWhiteSpace before) by (try assumption; now apply (stopsAt_key K)).
  rewrite (span_run K key) by (try assumption; now apply stopsAt_closing).
  rewrite Hne.
  rewrite (span_run isWhiteSpace after) by (try assumption; reflexivity).
  reflexivity.
Qed.

(** A pass replaces a token by what the replacer gives for its key. *)
Lemma replaceTokens_token (K : ascii -> bool) (f : string -> string)
    (before key after rest : string) :
  (forall c, K c = true -> isPathChar c = true) ->
  allChars isWhiteSpace before = true -> allChars isWhiteSpace after = true ->
  nonEmpty key = true -> allChars K key = true ->
  AnswerController.replaceTokens K f 0 ("{{" ++ before ++ key ++ after ++ "}}" ++ rest)
  = f key ++ AnswerController.replaceTokens K f 0 rest.
Proof.
  intros HK Hb Ha Hne Hkey.
  pose proof (matchToken_token K before key after rest HK Hb Ha Hne Hkey) as Hmatch.
  change ("{{" ++ before ++ key ++ after ++ "}}" ++ rest)
    with (String "{" ("{" ++ before ++ key ++ after ++ "}}" ++ rest)) in *.
  rewrite replaceTokens_step, Hmatch. f_equal.
  replace ("{" ++ before ++ key ++ after ++ "}}" ++ rest)
    with (("{" ++ before ++ key ++ after ++ "}}") ++ rest)
    by (cbn [append]; now rewrite !append_assoc).
  rewrite length_append, Nat.add_sub. apply replaceTokens_skip.
Qed.













(** ** White space *)


Lemma trimEnd_blank (s : string) :
  trimEnd s = "" <-> allChars isWhiteSpace s = true.
Proof.
  induction s as [|c s IH]; simpl; [tauto|].
  destruct (trimEnd s) as [|d t].
  - destruct (isWhiteSpace c); simpl; [tauto | split; discriminate].
  - split; [discriminate|]. intros H. apply andb_true_iff in H as [_ H].
    apply IH in H. discriminate.
Qed.

Lemma trimStart_stops (s : string) : stopsAt isWhiteSpace (trimStart s) = true.
Proof.
  induction s as [|c s IH]; simpl; [reflexivity|].
  destruct (isWhiteSpace c) eqn:Hc; [exact IH | simpl; now rewrite Hc].
Qed.

Lemma trimStart_fixed (s : string) : stopsAt isWhiteSpace s = true -> trimStart s = s.
Proof. destruct s as [|c s]; simpl; [reflexivity|]. now destruct (isWhiteSpace c). Qed.

Lemma trimEnd_head (c : ascii) (s : string) :
  isWhiteSpace c = false -> exists t, trimEnd (String c s) = String c t.
Proof. intros Hc. simpl. destruct (trimEnd s); [rewrite Hc|]; eexists; reflexivity. Qed.

Lemma trimEnd_idempotent (s : string) : trimEnd (trimEnd s) = trimEnd s.
Proof.
  induction s as [|c s IH]; simpl; [reflexivity|].
  destruct (trimEnd s) as [|d t] eqn:E.
  - destruct (isWhiteSpace c) eqn:Hc; simpl; [reflexivity | now rewrite Hc].
  - change (trimEnd (String c (String d t))) with
      (match trimEnd (String d t) with
       | EmptyString => if isWhiteSpace c then EmptyString else String c EmptyString
       | String a b => String c (String a b)
       end).
    now rewrite IH.
Qed.


Lemma trim_stops (s : string) : stopsAt isWhiteSpace (trim s) = true.
Proof.
  unfold trim. pose proof (trimStart_stops s) as Hstop.
  destruct (trimStart s) as [|c t]; [reflexivity|]. simpl in Hstop.
  destruct (trimEnd_head c t) as [t' ->]; [now destruct (isWhiteSpace c)|].
  exact Hstop.
Qed.


Lemma orEmpty (s : string) : (if nonEmpty s then s else "") = s.
Proof. unfold nonEmpty. now destruct (String.eqb_spec s "") as [->|]. Qed.

Lemma space_code (c : ascii) : (charCode c =? 32)%nat = true -> c = " "%char.
Proof.
  intros H. apply Nat.eqb_eq in H. unfold charCode in H.
  rewrite <- (ascii_nat_embedding c), H. reflexivity.
Qed.

Lemma collapseWhiteSpace_cons (c : ascii) (s : string) :
  collapseWhiteSpace (String c s)
  = if isWhiteSpace c then
      match s with
      | String c' _ =>
          if isWhiteSpace c' then collapseWhiteSpace s
          else String " " (collapseWhiteSpace s)
      | EmptyString => String " " EmptyString
      end
    else String c (collapseWhiteSpace s).
Proof. reflexivity. Qed.

(** Behind [collapseWhiteSpace], a text that does not end in white
    space has single spaces only. *)
Lemma collapseWhiteSpace_singleSpaced (s : string) :
  trimEnd s = s -> singleSpaced (collapseWhiteSpace s) = true.
Proof.
  induction s as [|c s IH]; [reflexivity|].
  intros H. simpl in H. rewrite collapseWhiteSpace_cons.
  destruct (trimEnd s) as [|d t] eqn:E.
  - destruct (isWhiteSpace c) eqn:Hc; [discriminate|].
    injection H as <-. simpl. now rewrite Hc.
  - injection H as <-. specialize (IH eq_refl).
    destruct (isWhiteSpace c) eqn:Hc.
    + destruct (isWhiteSpace d) eqn:Hd; [exact IH|].
      rewrite collapseWhiteSpace_cons, Hd in IH |- *.
      simpl in IH |- *. rewrite Hd in IH |- *. exact IH.
    + simpl singleSpaced. rewrite Hc. exact IH.
Qed.

Lemma singleSpaced_collapseWhiteSpace (s : string) :
  singleSpaced s = true -> collapseWhiteSpace s = s.
Proof.
  induction s as [|c s IH]; [reflexivity|].
  intros H. simpl in H. rewrite collapseWhiteSpace_cons.
  apply andb_true_iff in H as [Hc Hs]. rewrite (IH Hs).
  destruct (isWhiteSpace c); [|reflexivity].
  apply andb_true_iff in Hc as [Hcode Hnext].
  rewrite (space_code c Hcode).
  destruct s as [|d s]; [discriminate|]. now destruct (isWhiteSpace d).
Qed.

Lemma singleSpaced_trimEnd (s : string) : singleSpaced s = true -> trimEnd s = s.
Proof.
  induction s as [|c s IH]; [reflexivity|].
  intros H. simpl in H. apply andb_true_iff in H as [Hc Hs].
  simpl. rewrite (IH Hs). destruct s as [|d s]; [|reflexivity].
  destruct (isWhiteSpace c); [|reflexivity].
  apply andb_true_iff in Hc as [_ Hc]. discriminate.
Qed.

Lemma collapseWhiteSpace_stops (s : string) :
  stopsAt isWhiteSpace s = true -> stopsAt isWhiteSpace (collapseWhiteSpace s) = true.
Proof.
  destruct s as [|c s]; [reflexivity|]. rewrite collapseWhiteSpace_cons. simpl.
  destruct (isWhiteSpace c) eqn:Hc; [discriminate|]. simpl. now rewrite Hc.
Qed.

Lemma normalize_collapse (text : string) :
  ChatHandler.normalize text = collapseWhiteSpace (trim text).
Proof. unfold ChatHandler.normalize. now rewrite orEmpty. Qed.

(** X1. What [normalize] returns has no white space at its start or at
    its end, and between two words one space and nothing else; so
    [normalize] leaves it as it is. *)
Theorem normalize_idempotent (text : string) :
  stopsAt isWhiteSpace (ChatHandler.normalize text) = true
  /\ singleSpaced (ChatHandler.normalize text) = true
  /\ ChatHandler.normalize (ChatHandler.normalize text) = ChatHandler.normalize text.
Proof.
  rewrite !normalize_collapse.
  assert (Hstop : stopsAt isWhiteSpace (collapseWhiteSpace (trim text)) = true)
    by (apply collapseWhiteSpace_stops, trim_stops).
  assert (Hsingle : singleSpaced (collapseWhiteSpace (trim text)) = true)
    by (apply collapseWhiteSpace_singleSpaced; unfold trim; apply trimEnd_idempotent).
  split; [exact Hstop|]. split; [exact Hsingle|].
  unfold trim at 1. rewrite (trimStart_fixed _ Hstop), (singleSpaced_trimEnd _ Hsingle).
  now apply singleSpaced_collapseWhiteSpace.
Qed.


(** ** The refusal text *)




(** ** Keeping the first occurrences *)

Lemma indexOfFrom_found (k : nat) (self : list string) (x : string) (i : nat) :
  GeminiClient.indexOfFrom k self x = Some i ->
  k <= i /\ nth_error self (i - k) = Some x.
Proof.
  revert k. induction self as [|y rest IH]; intros k; simpl; [discriminate|].
  destruct (String.eqb_spec y x) as [->|Hyx].
  - intros [= <-]. split; [lia|]. now rewrite Nat.sub_diag.
  - intros H. apply IH in H as [Hle Hnth]. split; [lia|].
    replace (i - k) with (S (i - S k)) by lia. exact Hnth.
Qed.

Lemma indexOfFrom_In (k : nat) (self : list string) (x : string) :
  In x self -> exists i, GeminiClient.indexOfFrom k self x = Some i.
Proof.
  revert k. induction self as [|y rest IH]; intros k Hin; simpl; [contradiction|].
  destruct (String.eqb_spec y x) as [->|Hyx]; [now exists k|].
  destruct Hin as [->|Hin]; [contradiction|]. now apply IH.
Qed.

Lemma In_combine_seq {A} (l : list A) (k i : nat) (x : A) :
  nth_error l i = Some x -> In ((k + i)%nat, x) (combine (seq k (List.length l)) l).
Proof.
  revert k i. induction l as [|y l IH]; intros k i H; [now destruct i|].
  destruct i as [|i]; simpl in H |- *.
  - injection H as ->. left. f_equal. lia.
  - right. replace (k + S i)%nat with (S k + i)%nat by lia. now apply IH.
Qed.

Lemma fst_combine_seq {A} (l : list A) (k : nat) :
  map fst (combine (seq k (List.length l)) l) = seq k (List.length l).
Proof.
  revert k. induction l as [|y l IH]; intros k; simpl; [reflexivity|]. now rewrite IH.
Qed.

(** Dropping entries keeps the indices distinct. *)
Lemma NoDup_fst_filter {A B} (keep : A * B -> bool) (entries : list (A * B)) :
  NoDup (map fst entries) -> NoDup (map fst (filter keep entries)).
Proof.
  induction entries as [|entry entries IH]; cbn [map filter]; intros Hdistinct;
    [constructor|].
  apply NoDup_cons_iff in Hdistinct as [Hfresh Hrest].
  destruct (keep entry); [|now apply IH].
  cbn [map]. apply NoDup_cons_iff. split; [|now apply IH].
  rewrite in_map_iff. intros [other [Hindex Hkept]].
  apply filter_In in Hkept as [Hkept _].
  apply Hfresh. rewrite <- Hindex. now apply in_map.
Qed.

Lemma NoDup_map_snd {A B} (l : list (A * B)) :
  NoDup (map fst l) ->
  (forall p q, In p l -> In q l -> snd p = snd q -> fst p = fst q) ->
  NoDup (map snd l).
Proof.
  induction l as [|p l IH]; simpl; intros Hfst Hsame; [constructor|].
  inversion Hfst as [|y ys Hnot Hrest]; subst.
  constructor.
  - intros Hin. apply in_map_iff in Hin as [q [Hq Hin]].
    apply Hnot. rewrite <- (Hsame q p); [now apply in_map | now right | now left | exact Hq].
  - apply IH; [exact Hrest|]. intros p' q' Hp Hq. apply Hsame; now right.
Qed.

(** [unique] keeps every element once. *)
Lemma unique_NoDup (self : list string) : NoDup (GeminiClient.unique self).
Proof.
  unfold GeminiClient.unique. apply NoDup_map_snd.
  - apply NoDup_fst_filter. rewrite fst_combine_seq. apply seq_NoDup.
  - intros [i x] [j y] Hp Hq. simpl. intros <-.
    apply filter_In in Hp as [_ Hp]. apply filter_In in Hq as [_ Hq]. simpl in Hp, Hq.
    destruct (GeminiClient.indexOf self x) as [n|]; [|discriminate].
    apply Nat.eqb_eq in Hp, Hq. congruence.
Qed.

Lemma unique_In (self : list string) (x : string) :
  In x (GeminiClient.unique self) <-> In x self.
Proof.
  unfold GeminiClient.unique. rewrite in_map_iff. split.
  - intros [[i y] [Hy Hin]]. simpl in Hy. subst y.
    apply filter_In in Hin as [Hin _]. now apply in_combine_r in Hin.
  - intros Hin. destruct (indexOfFrom_In 0 self x Hin) as [i Hi].
    exists (i, x). split; [reflexivity|]. apply filter_In. split.
    + apply indexOfFrom_found in Hi as [_ Hnth]. rewrite Nat.sub_0_r in Hnth.
      exact (In_combine_seq self 0 i x Hnth).
    + simpl. unfold GeminiClient.indexOf. rewrite Hi. apply Nat.eqb_refl.
Qed.

Lemma unique_head (x : string) (rest : list string) :
  exists others, GeminiClient.unique (x :: rest) = x :: others.
Proof.
  unfold GeminiClient.unique, GeminiClient.indexOf.
  cbn [List.length seq combine filter fst snd GeminiClient.indexOfFrom].
  rewrite String.eqb_refl. cbn [Nat.eqb map snd]. eexists. reflexivity.
Qed.

Lemma envOr_nonEmpty (w : World) (name fallback : string) :
  fallback <> "" -> envOr w name fallback <> "".
Proof.
  intros Hf. unfold envOr. destruct (env w name) as [v|]; [|exact Hf].
  unfold nonEmpty. now destruct (String.eqb_spec v "").
Qed.

(** X4. The models [callGemini] tries are the configured model, the
    default model and the two fallbacks: the configured one first, each
    once, none with an empty name. *)
Theorem candidateModels_members (w : World) :
  let configured := envOr w "GEMINI_MODEL" GeminiClient.DEFAULT_GEMINI_MODEL in
  hd_error (GeminiClient.candidateModels w) = Some configured
  /\ NoDup (GeminiClient.candidateModels w)
  /\ forall model,
       In model (GeminiClient.candidateModels w)
       <-> In model [configured; "gemini-1.5-flash"; "gemini-1.5-pro"; "gemini-1.0-pro"]
           /\ model <> "".
Proof.
  cbv zeta. unfold GeminiClient.candidateModels. cbv zeta.
  pose proof (envOr_nonEmpty w "GEMINI_MODEL" GeminiClient.DEFAULT_GEMINI_MODEL
                ltac:(discriminate)) as Hconfigured.
  set (configured := envOr w "GEMINI_MODEL" GeminiClient.DEFAULT_GEMINI_MODEL) in *.
  split; [|split].
  - destruct (unique_head configured
                (GeminiClient.DEFAULT_GEMINI_MODEL :: GeminiClient.FALLBACK_MODELS))
      as [others ->].
    reflexivity.
  - apply unique_NoDup.
  - intros model. rewrite unique_In.
    unfold GeminiClient.DEFAULT_GEMINI_MODEL, GeminiClient.FALLBACK_MODELS.
    split; [|tauto]. intros Hin. split; [exact Hin|].
    destruct Hin as [<-|[<-|[<-|[<-|[]]]]]; (assumption || discriminate).
Qed.

(** ** The keywords of the guardrails *)






(** ** The requests to the providers *)

Lemma historyContents_turns (history : list value) :
  List.length (GeminiClient.historyContents history) <= List.length history
  /\ Forall (fun turn => role turn = "user" \/ role turn = "model")
            (GeminiClient.historyContents history).
Proof.
  induction history as [|msg rest [IHlen IHroles]];
    cbn [GeminiClient.historyContents List.length]; [split; [lia | constructor]|].
  destruct (truthy msg && _ && _).
  - split; [simpl; lia|]. constructor; [|exact IHroles]. cbn [role].
    destruct (optChain (Some msg) "role") as [[| | |r| |]|]; try now left.
    repeat (destruct r as [|[[] [] [] [] [] [] [] []] r]; try now left).
    now right.
  - split; [lia | exact IHroles].
Qed.

Lemma assistant_role (r : string) :
  match r with
  | "assistant" => "model"
  | _ => "user"
  end = if r =? "assistant" then "model" else "user".
Proof.
  destruct (String.eqb_spec r "assistant") as [->|Hr]; [reflexivity|].
  repeat (destruct r as [|[[] [] [] [] [] [] [] []] r]; try reflexivity).
  congruence.
Qed.

Lemma historyContents_messages (messages : list (string * string)) :
  Forall (fun m => fst m <> "" /\ snd m <> "") messages ->
  GeminiClient.historyContents
    (map (fun m => OpenAIClient.chatMessage (fst m) (snd m)) messages)
  = map (fun m => mkTurn (if fst m =? "assistant" then "model" else "user") (snd m))
        messages.
Proof.
  induction 1 as [|[r c] messages [Hr Hc] Hrest IH]; [reflexivity|].
  cbn [map fst snd GeminiClient.historyContents] in *. rewrite IH.
  unfold OpenAIClient.chatMessage at 1 2 3 4 5. cbn [optChain member lookup truthy].
  change ("role" =? "role") with true. change ("role" =? "content") with false.
  change ("content" =? "content") with true. cbv iota. cbn [truthyOpt truthy toString].
  rewrite !nonEmpty_true by assumption. cbn [andb]. now rewrite assistant_role.
Qed.

(** X7. The contents [callGemini] sends: the system prompt as a first
    turn of the user, the user prompt as the last turn, and between
    them one turn at most for each entry of the history, each of them
    a turn of the user or of the model.  A history of messages with a
    role and a content gives one turn each, in the same order, with
    the same text: a turn of the model for the role [assistant], a
    turn of the user for any other role. *)
Theorem buildContents_shape (systemPrompt userPrompt : string) (history : list value) :
  (exists turns,
     GeminiClient.buildContents systemPrompt userPrompt history
     = (mkTurn "user" systemPrompt :: turns ++ [mkTurn "user" userPrompt])%list
     /\ List.length turns <= List.length history
     /\ Forall (fun turn => role turn = "user" \/ role turn = "model") turns)
  /\ forall messages : list (string * string),
       Forall (fun m => fst m <> "" /\ snd m <> "") messages ->
       history = map (fun m => OpenAIClient.chatMessage (fst m) (snd m)) messages ->
       GeminiClient.buildContents systemPrompt userPrompt history
       = (mkTurn "user" systemPrompt
            :: map (fun m => mkTurn (if fst m =? "assistant" then "model" else "user") (snd m))
                   messages
            ++ [mkTurn "user" userPrompt])%list.
Proof.
  split.
  - exists (GeminiClient.historyContents history).
    split; [reflexivity | apply historyContents_turns].
  - intros messages Hmessages ->. unfold GeminiClient.buildContents.
    now rewrite historyContents_messages.
Qed.



(** X9. A reply of the primary provider with a status outside 200 to
    299 makes [callOpenAI] fail with the status and the body in the
    message; the failure is of the quota class, the one that lets the
    handler go to the secondary provider, when the status is 429, and
    when the body names [insufficient_quota], whatever the status. *)
Theorem http_failures_of_the_quota_class (status : Z) (data : string) (json : result value) :
  (status < 200 \/ 300 <= status)%Z ->
  exists error,
    OpenAIClient.chatOutcome (Response status data json) = Throw error
    /\ Js.message error = "OpenAI error " ++ intToString status ++ ": " ++ data
    /\ (status = 429%Z \/ occursIn "insufficient_quota" data ->
        ChatHandler.isQuotaError (ChatHandler.messageOr error "OpenAI failed") = true).
Proof.
  intros Hstatus.
  assert (Hfail : OpenAIClient.notSuccess status = true)
    by (unfold OpenAIClient.notSuccess; apply orb_true_iff; lia).
  unfold OpenAIClient.chatOutcome. rewrite Hfail. eexists. split; [reflexivity|].
  split; [reflexivity|].
  intros Hquota. unfold ChatHandler.messageOr. cbn [Js.message Error].
  change (nonEmpty ("OpenAI error " ++ intToString status ++ ": " ++ data)) with true.
  cbv iota. apply isQuotaError_iff.
  destruct Hquota as [->|[before [after ->]]].
  - right. left. now exists "", (": " ++ data).
  - left. exists ("OpenAI error " ++ intToString status ++ ": " ++ before), after.
    now rewrite !append_assoc.
Qed.

Lemma http_failures_of_the_quota_class_witness :
  (429 < 200 \/ 300 <= 429)%Z
  /\ exists error,
       OpenAIClient.chatOutcome
         (Response 429 "Too Many Requests" (Throw (Error "Unexpected token T")))
       = Throw error
       /\ Js.message error = "OpenAI error 429: Too Many Requests"
       /\ (429%Z = 429%Z \/ occursIn "insufficient_quota" "Too Many Requests" ->
           ChatHandler.isQuotaError (ChatHandler.messageOr error "OpenAI failed") = true).
Proof.
  split; [lia|].
  exact (http_failures_of_the_quota_class 429 "Too Many Requests"
           (Throw (Error "Unexpected token T")) ltac:(lia)).
Defined.

(** ** The discovery of a model *)

(** X10. What the discovery step of [callGemini] ends in.  A text comes
    from the one retry.  The error it throws is the failure of the list
    request, or the failure of the retry; it is the error the loop over
    the candidates ended with only when the list came and no request
    was sent for any model of it, as when the list is empty. *)
Theorem discoverAndRetry_surfaces_the_latest_failure
    (w : World) (apiKey : string) (contents : list content_turn)
    (lastError : option js_error) (s : State) :
  let final := GeminiClient.discoverAndRetry w apiKey contents lastError s in
  let listed := GeminiClient.listOutcome (network w (sent s)) in
  let retried := GeminiClient.generateOutcome (network w (S (sent s))) in
  match snd final with
  | Ok text => sent (fst final) = S (S (sent s)) /\ retried = Ok text
  | Throw error =>
      (sent (fst final) = S (sent s) /\ listed = Throw error)
      \/ (sent (fst final) = S (S (sent s)) /\ retried = Throw error)
      \/ (sent (fst final) = S (sent s)
          /\ (exists available, listed = Ok available)
          /\ error = lastErrorOr lastError)
  end
  /\ (listed = Ok [] -> snd final = Throw (lastErrorOr lastError)).
Proof.
  cbv zeta.
  unfold GeminiClient.discoverAndRetry, GeminiClient.listGeminiModels,
    GeminiClient.requestGemini.
  unfold bind, tryCatch, http, lift, ret, throw. cbn [sent trace logFile fst snd].
  destruct (GeminiClient.listOutcome (network w (sent s))) as [available|error];
    cbv zeta beta iota.
  - split.
    + destruct (match find _ GeminiClient.PREFERRED_MODELS with
                | Some model => if nonEmpty model then Some model else hd_error available
                | None => hd_error available
                end) as [model|].
      * destruct (nonEmpty model).
        -- cbn [sent trace logFile fst snd].
           destruct (GeminiClient.generateOutcome (network w (S (sent s)))) as [text|error];
             cbn [fst snd sent]; [now split | right; left; now split].
        -- destruct lastError; cbn [fst snd sent]; right; right;
             (split; [reflexivity|]); (split; [now exists available | reflexivity]).
      * destruct lastError; cbn [fst snd sent]; right; right;
          (split; [reflexivity|]); (split; [now exists available | reflexivity]).
    + intros [= ->]. cbn. now destruct lastError.
  - cbn [fst snd sent]. split; [left; now split | discriminate].
Qed.

(** ** The knowledge files *)



(** ** What the handler emits *)

Lemma geminiOnly_requestGemini (w : World) (model apiKey : string)
    (contents : list content_turn) :
  emitsOnly isGeminiEvent (GeminiClient.requestGemini w model apiKey contents).
Proof. unfold GeminiClient.requestGemini. mono. Qed.

Lemma geminiOnly_listGeminiModels (w : World) (apiKey : string) :
  emitsOnly isGeminiEvent (GeminiClient.listGeminiModels w apiKey).
Proof. unfold GeminiClient.listGeminiModels. mono. Qed.

Lemma geminiOnly_tryModels (w : World) (apiKey : string) (contents : list content_turn)
    (models : list string) (lastError : option js_error) :
  emitsOnly isGeminiEvent (GeminiClient.tryModels w apiKey contents models lastError).
Proof.
  revert lastError.
  induction models as [|model rest IH]; intros lastError; simpl.
  - mono.
  - apply emitsOnly_tryCatch.
    + apply emitsOnly_bind; [apply geminiOnly_requestGemini | mono].
    + intros e. destruct (negb _); [mono | apply IH].
Qed.

#[local] Hint Resolve geminiOnly_requestGemini geminiOnly_listGeminiModels
  geminiOnly_tryModels : mono.

(** All that [callGemini] emits are events of the secondary provider. *)
Lemma geminiOnly_callGemini (w : World) (systemPrompt userPrompt : string)
    (history : list value) :
  emitsOnly isGeminiEvent (GeminiClient.callGemini w systemPrompt userPrompt history).
Proof. unfold GeminiClient.callGemini, GeminiClient.discoverAndRetry. mono. Qed.

Lemma providerOnly_callOpenAI (w : World) (systemPrompt userPrompt : string)
    (history : list value) :
  emitsOnly isProviderEvent (OpenAIClient.callOpenAI w systemPrompt userPrompt history).
Proof. unfold OpenAIClient.callOpenAI. mono. Qed.

Lemma providerOnly_callGemini (w : World) (systemPrompt userPrompt : string)
    (history : list value) :
  emitsOnly isProviderEvent (GeminiClient.callGemini w systemPrompt userPrompt history).
Proof.
  eapply emitsOnly_weaken; [|apply geminiOnly_callGemini].
  intros [[] ? ? ?|[]| | |]; (discriminate || reflexivity).
Qed.

(** The events of [openAIFailed], the [catch] block of the call of the
    primary provider. *)
Lemma emitsOnly_openAIFailed (P : event -> bool) (w : World) (characterSlug message : string)
    (pipeline : PipelineRunner.PipelineInputs) (error : js_error) :
  emitsOnly P (GeminiClient.callGemini w
                 (AnswerController.system (PipelineRunner.prompt pipeline))
                 (AnswerController.user (PipelineRunner.prompt pipeline))
                 (PipelineRunner.conversationHistory pipeline)) ->
  (forall failure,
     P (Logged (mkRecord (now w) characterSlug message ("openai_error:" ++ failure))) = true) ->
  (forall failure,
     P (Logged (mkRecord (now w) characterSlug message ("gemini_error:" ++ failure))) = true) ->
  (forall failure, P (SendJson 500 (ErrorBody failure)) = true) ->
  emitsOnly P (ChatHandler.openAIFailed w characterSlug message pipeline error).
Proof.
  intros Hgemini Hopenai Hfallback Hsend.
  unfold ChatHandler.openAIFailed, ChatHandler.sendJson. cbv zeta.
  destruct (negb _).
  - apply emitsOnly_bind; [apply emitsOnly_log, Hopenai|]. intros _.
    apply emitsOnly_bind; [apply emitsOnly_emit, Hsend|]. intros _. apply emitsOnly_ret.
  - apply emitsOnly_tryCatch.
    + apply emitsOnly_bind; [exact Hgemini|]. intros text. apply emitsOnly_ret.
    + intros fallbackError.
      apply emitsOnly_bind; [apply emitsOnly_log, Hfallback|]. intros _.
      apply emitsOnly_bind; [apply emitsOnly_emit, Hsend|]. intros _. apply emitsOnly_ret.
Qed.

(** The events of the handler behind the raw answer. *)
Lemma emitsOnly_answered (P : event -> bool) (w : World) (characterSlug message : string)
    (pipeline : PipelineRunner.PipelineInputs) (answered : option string) :
  P (Logged (mkRecord (now w) characterSlug message "model_refusal")) = true ->
  P (Logged (mkRecord (now w) characterSlug message "safety_refusal")) = true ->
  (forall rawAnswer,
     P (SendJson 200
          (AnswerBody
             (PipelineRunner.applySafety rawAnswer (PipelineRunner.safety pipeline)
                (RetrievePrimary.guardrails (PipelineRunner.primary pipeline))
                (PipelineRunner.refusalText pipeline))
             (AnswerController.shouldRefuse (PipelineRunner.prompt pipeline)))) = true) ->
  emitsOnly P (ChatHandler.afterAnswer w characterSlug message pipeline answered).
Proof.
  intros Hmodel Hsafety Hsend. unfold ChatHandler.afterAnswer, ChatHandler.sendJson. cbv zeta.
  destruct answered as [rawAnswer|]; [|apply emitsOnly_ret].
  apply emitsOnly_bind; [| intros _; apply emitsOnly_bind; [| intros _]];
    repeat match goal with |- emitsOnly _ (if ?b then _ else _) => destruct b end;
    first [ apply emitsOnly_log; assumption
          | apply emitsOnly_emit; apply Hsend
          | apply emitsOnly_ret ].
Qed.

(** The events of the handler once the pipeline inputs are loaded. *)
Lemma emitsOnly_answerPipeline (P : event -> bool) (w : World) (characterSlug message : string)
    (pipeline : PipelineRunner.PipelineInputs) :
  let record := mkRecord (now w) characterSlug message in
  let systemPrompt := AnswerController.system (PipelineRunner.prompt pipeline) in
  let userPrompt := AnswerController.user (PipelineRunner.prompt pipeline) in
  let history := PipelineRunner.conversationHistory pipeline in
  let flag := AnswerController.shouldRefuse (PipelineRunner.prompt pipeline) in
  (flag = true -> P (Logged (record "empty_context")) = true) ->
  (flag = false ->
   emitsOnly P (OpenAIClient.callOpenAI w systemPrompt userPrompt history)
   /\ emitsOnly P (GeminiClient.callGemini w systemPrompt userPrompt history)
   /\ (forall failure, P (Logged (record ("openai_error:" ++ failure))) = true)
   /\ (forall failure, P (Logged (record ("gemini_error:" ++ failure))) = true)
   /\ (forall failure, P (SendJson 500 (ErrorBody failure)) = true)) ->
  P (Logged (record "model_refusal")) = true ->
  P (Logged (record "safety_refusal")) = true ->
  (forall rawAnswer,
     P (SendJson 200
          (AnswerBody
             (PipelineRunner.applySafety rawAnswer (PipelineRunner.safety pipeline)
                (RetrievePrimary.guardrails (PipelineRunner.primary pipeline))
                (PipelineRunner.refusalText pipeline))
             flag)) = true) ->
  emitsOnly P (ChatHandler.answerPipeline w characterSlug message pipeline).
Proof.
  cbv zeta. intros Hempty Hcalls Hmodel Hsafety Hsend.
  unfold ChatHandler.answerPipeline.
  apply emitsOnly_bind; [|intros answered; now apply emitsOnly_answered].
  unfold ChatHandler.rawAnswerOf.
  destruct (AnswerController.shouldRefuse (PipelineRunner.prompt pipeline)).
  - apply emitsOnly_bind; [apply emitsOnly_log; now apply Hempty|].
    intros _. apply emitsOnly_ret.
  - destruct (Hcalls eq_refl) as [Hopenai [Hgemini [Hlog1 [Hlog2 Hfail]]]].
    apply emitsOnly_tryCatch.
    + apply emitsOnly_bind; [exact Hopenai|]. intros text. apply emitsOnly_ret.
    + intros error. now apply emitsOnly_openAIFailed.
Qed.

Lemma providerEvents_any (P : event -> bool) :
  (forall p systemPrompt userPrompt history,
     P (Called p systemPrompt userPrompt history) = true) ->
  (forall r, P (Sent r) = true) ->
  forall e, isProviderEvent e = true -> P e = true.
Proof. intros Hcalled Hsent [ | | | | ]; intros; (discriminate || auto). Qed.

(** ** How the handler ends *)

(** The ways through [handleChatRequest]: it answers at once, it
    throws before it has done anything, or it goes on with the
    pipeline inputs it has loaded for a character and a message that
    are not empty. *)
Lemma handleChatRequest_cases (w : World) (req : ChatHandler.Request) (s : State) :
  (exists e,
     In e [End 204; SendJson 404 (ErrorBody "Not found");
           SendJson 400 (ErrorBody "Invalid JSON");
           SendJson 400 (ErrorBody "Missing message");
           SendJson 400 (ErrorBody "Missing character")]
     /\ ChatHandler.handleChatRequest w req s
        = (mkState (sent s) (trace s ++ [e]) (logFile s), Ok tt))
  \/ (exists error, ChatHandler.handleChatRequest w req s = (s, Throw error))
  \/ (exists characterSlug message history pipeline,
        characterSlug <> "" /\ message <> ""
        /\ PipelineRunner.loadPipelineInputs w characterSlug message history = Ok pipeline
        /\ ChatHandler.handleChatRequest w req s
           = ChatHandler.answerPipeline w characterSlug message pipeline s).
Proof.
  unfold ChatHandler.handleChatRequest, ChatHandler.sendJson.
  destruct (ChatHandler.method req =? "OPTIONS");
    [left; eexists; split; [|reflexivity]; simpl; tauto|].
  destruct (negb _ || negb _);
    [left; eexists; split; [|reflexivity]; simpl; tauto|].
  destruct (if nonEmpty (ChatHandler.body req) then ChatHandler.bodyJson req else Ok (VObj []))
    as [payload|error]; [|left; eexists; split; [|reflexivity]; simpl; tauto].
  unfold bind, lift. cbv zeta.
  destruct (getProp payload "message") as [payloadMessage|error];
    [|right; left; now exists error].
  destruct (getProp payload "character") as [payloadCharacter|error];
    [|right; left; now exists error].
  destruct (getProp payload "conversationHistory") as [payloadHistory|error];
    [|right; left; now exists error].
  destruct (nonEmpty (trim (toString (orElse payloadMessage (VStr ""))))) eqn:Hmessage;
    [|left; eexists; split; [|reflexivity]; simpl; tauto].
  destruct (nonEmpty (toLowerCase (trim (toString (orElse payloadCharacter (VStr ""))))))
    eqn:Hslug; [|left; eexists; split; [|reflexivity]; simpl; tauto].
  cbn [negb].
  destruct (PipelineRunner.loadPipelineInputs w _ _ _) as [pipeline|error] eqn:Hload;
    [|right; left; now exists error].
  right. right. do 4 eexists. split; [|split; [|split; [exact Hload | reflexivity]]].
  - intros E. rewrite E in Hslug. discriminate.
  - intros E. rewrite E in Hmessage. discriminate.
Qed.

Lemma loadPrimaryRag_context_trim (w : World) (characterSlug : string)
    (r : RetrievePrimary.PrimaryRagResult) :
  RetrievePrimary.loadPrimaryRag w characterSlug = Ok r ->
  trim (RetrievePrimary.context r) <> "".
Proof.
  intros Hr. destruct (loadPrimaryRag_context w characterSlug r Hr) as [others ->].
  match goal with
  | |- trim (join ?sep (RetrievePrimary.formatSection ?title ?data :: ?rest)) <> _ =>
      destruct (join_section sep title data rest) as [tail ->]
  end.
  now apply trim_starts_with_text.
Qed.

(** The pipeline inputs that [loadPipelineInputs] returns. *)
Lemma loadPipelineInputs_fields (w : World) (characterSlug message : string)
    (history : list value) (pipeline : PipelineRunner.PipelineInputs) :
  PipelineRunner.loadPipelineInputs w characterSlug message history = Ok pipeline ->
  AnswerController.loadSafetyConfig w = Ok (PipelineRunner.safety pipeline)
  /\ PipelineRunner.refusalText pipeline = AnswerController.buildRefusalText w
  /\ AnswerController.shouldRefuse (PipelineRunner.prompt pipeline) = false.
Proof.
  unfold PipelineRunner.loadPipelineInputs.
  destruct (RetrievePrimary.loadPrimaryRag w characterSlug) as [primary|] eqn:Hprimary;
    [|discriminate].
  destruct (AnswerController.loadSafetyConfig w) as [safety|]; [|discriminate].
  cbv beta iota zeta delta [bindR]. intros [= <-].
  cbn [PipelineRunner.safety PipelineRunner.refusalText PipelineRunner.prompt].
  split; [reflexivity|]. split; [reflexivity|].
  rewrite shouldRefuse_context. cbn [AnswerController.context].
  pose proof (loadPrimaryRag_context_trim w characterSlug primary Hprimary) as Htrim.
  now destruct (String.eqb_spec (trim (RetrievePrimary.context primary)) "").
Qed.

Lemma bind_log {A} (w : World) (r : UnansweredRecord) (k : unit -> M A) (s : State) :
  exists lines,
    bind (UnansweredLogger.logUnansweredQuestion w r) k s
    = k tt (mkState (sent s) (trace s ++ [Logged r]) lines).
Proof.
  unfold bind. destruct (logUnansweredQuestion_run w r s) as [lines ->]. now exists lines.
Qed.


(** Run the call of the logger that the goal starts with. *)
Ltac run_log lines :=
  match goal with
  | |- context [bind (UnansweredLogger.logUnansweredQuestion ?w ?r) ?k ?s] =>
      destruct (bind_log w r k s) as [lines ->]
  end.






(** X13. A request that [handleChatRequest] turns down with the status
    400 or 404 has gone no further: that response is all the run has
    done, no file of the log was touched and no request was sent. *)
Theorem rejected_requests_go_no_further
    (w : World) (req : ChatHandler.Request) (status : Z) (body : response_body) :
  let final := fst (run (ChatHandler.handleChatRequest w req)) in
  In (SendJson status body) (trace final) ->
  status = 400%Z \/ status = 404%Z ->
  final = mkState 0 [SendJson status body] [].
Proof.
  cbv zeta. unfold run.
  destruct (handleChatRequest_cases w req initial)
    as [[e [He ->]] | [[error ->] | [slug [message [history [pipeline [_ [_ [_ ->]]]]]]]]].
  - cbn [fst trace initial app sent logFile]. intros [<-|[]] _. reflexivity.
  - intros [].
  - intros Hin Hstatus. exfalso.
    set (P := fun e => match e with
                       | SendJson code _ => (code =? 200)%Z || (code =? 500)%Z
                       | _ => true
                       end).
    assert (Hall : emitsOnly P (ChatHandler.answerPipeline w slug message pipeline)).
    { apply emitsOnly_answerPipeline; try reflexivity.
      intros _. repeat split; try reflexivity;
        (eapply emitsOnly_weaken;
         [apply providerEvents_any; reflexivity
         | first [apply providerOnly_callOpenAI | apply providerOnly_callGemini]]). }
    destruct (Hall initial) as [events [Htrace Hevents]].
    rewrite Htrace in Hin. cbn [trace initial app] in Hin.
    rewrite forallb_forall in Hevents. apply Hevents in Hin. simpl in Hin.
    destruct Hstatus as [-> | ->]; discriminate.
Qed.

Lemma rejected_requests_go_no_further_witness :
  In (SendJson 404 (ErrorBody "Not found"))
     (trace (fst (run (ChatHandler.handleChatRequest ghostWorld
                         (ChatHandler.mkRequest "GET" "/api/chat" "" (Ok (VObj [])))))))
  /\ fst (run (ChatHandler.handleChatRequest ghostWorld
                 (ChatHandler.mkRequest "GET" "/api/chat" "" (Ok (VObj [])))))
     = mkState 0 [SendJson 404 (ErrorBody "Not found")] [].
Proof.
  split; [now left|].
  apply (rejected_requests_go_no_further ghostWorld
           (ChatHandler.mkRequest "GET" "/api/chat" "" (Ok (VObj [])))
           404 (ErrorBody "Not found")); [now left | now right].
Defined.

(** ** The log file *)

Lemma logsOnly_ret {A} (P : UnansweredRecord -> bool) (a : A) : logsOnly P (ret a).
Proof. intros s. exists []. now rewrite app_nil_r. Qed.

Lemma logsOnly_throw {A} (P : UnansweredRecord -> bool) (e : js_error) :
  logsOnly P (@throw A e).
Proof. intros s. exists []. now rewrite app_nil_r. Qed.

Lemma logsOnly_lift {A} (P : UnansweredRecord -> bool) (r : result A) : logsOnly P (lift r).
Proof. intros s. exists []. now rewrite app_nil_r. Qed.

Lemma logsOnly_emit (P : UnansweredRecord -> bool) (e : event) : logsOnly P (emit e).
Proof. intros s. exists []. simpl. now rewrite app_nil_r. Qed.

Lemma logsOnly_http (P : UnansweredRecord -> bool) (w : World) (r : http_request) :
  logsOnly P (http w r).
Proof. intros s. exists []. simpl. now rewrite app_nil_r. Qed.

Lemma logsOnly_bind {A B} (P : UnansweredRecord -> bool) (c : M A) (k : A -> M B) :
  logsOnly P c -> (forall a, logsOnly P (k a)) -> logsOnly P (bind c k).
Proof.
  intros Hc Hk s. unfold bind. destruct (Hc s) as [l1 [H1 P1]].
  destruct (c s) as [s' [a|e]]; simpl in *; [|now exists l1].
  destruct (Hk a s') as [l2 [H2 P2]]. exists (l1 ++ l2)%list.
  now rewrite H2, H1, app_assoc, forallb_app, P1, P2.
Qed.

Lemma logsOnly_tryCatch {A} (P : UnansweredRecord -> bool) (c : M A)
    (handler : js_error -> M A) :
  logsOnly P c -> (forall e, logsOnly P (handler e)) -> logsOnly P (tryCatch c handler).
Proof.
  intros Hc Hh s. unfold tryCatch. destruct (Hc s) as [l1 [H1 P1]].
  destruct (c s) as [s' [a|e]]; simpl in *; [now exists l1|].
  destruct (Hh e s') as [l2 [H2 P2]]. exists (l1 ++ l2)%list.
  now rewrite H2, H1, app_assoc, forallb_app, P1, P2.
Qed.

(** The logger writes complete records, and writes when it can. *)
Lemma logsOnly_log (w : World) (r : UnansweredRecord) :
  logsOnly (fun r => complete r && logWritable w)
           (UnansweredLogger.logUnansweredQuestion w r).
Proof.
  intros s. unfold UnansweredLogger.logUnansweredQuestion.
  destruct (negb _ || negb _ || negb _ || negb _) eqn:Hmissing;
    [exists []; cbn [fst logFile]; now rewrite app_nil_r|].
  destruct (logWritable w) eqn:Hw;
    [|exists []; cbn [fst logFile]; now rewrite app_nil_r].
  exists [r]. cbn [fst logFile forallb]. split; [reflexivity|].
  unfold complete.
  destruct (nonEmpty (timestamp r)), (nonEmpty (character r)),
    (nonEmpty (Host.message r)), (nonEmpty (reason r)); (discriminate || reflexivity).
Qed.

Create HintDb logs.

#[local] Hint Resolve logsOnly_ret logsOnly_throw logsOnly_lift logsOnly_emit
  logsOnly_http logsOnly_log : logs.
#[local] Hint Extern 1 (logsOnly _ (ChatHandler.sendJson _ _)) =>
  (apply logsOnly_emit) : logs.

(** Break a computation down to the primitives above. *)
Ltac logs :=
  repeat first
    [ progress intros
    | progress cbv zeta
    | apply logsOnly_bind
    | apply logsOnly_tryCatch
    | solve [auto with logs]
    | match goal with
      | |- logsOnly _ (if ?b then _ else _) => destruct b
      | |- logsOnly _ (match ?x with _ => _ end) => destruct x
      end ].

Lemma logsOnly_tryModels (P : UnansweredRecord -> bool) (w : World) (apiKey : string)
    (contents : list content_turn) (models : list string) (lastError : option js_error) :
  logsOnly P (GeminiClient.tryModels w apiKey contents models lastError).
Proof.
  revert lastError.
  induction models as [|model rest IH]; intros lastError; simpl.
  - logs.
  - apply logsOnly_tryCatch.
    + unfold GeminiClient.requestGemini. logs.
    + intros e. destruct (negb _); [logs | apply IH].
Qed.

#[local] Hint Resolve logsOnly_tryModels : logs.

(** The providers leave the log file alone. *)
Lemma logsOnly_callGemini (P : UnansweredRecord -> bool) (w : World)
    (systemPrompt userPrompt : string) (history : list value) :
  logsOnly P (GeminiClient.callGemini w systemPrompt userPrompt history).
Proof.
  unfold GeminiClient.callGemini, GeminiClient.discoverAndRetry,
    GeminiClient.listGeminiModels, GeminiClient.requestGemini.
  logs.
Qed.

Lemma logsOnly_callOpenAI (P : UnansweredRecord -> bool) (w : World)
    (systemPrompt userPrompt : string) (history : list value) :
  logsOnly P (OpenAIClient.callOpenAI w systemPrompt userPrompt history).
Proof. unfold OpenAIClient.callOpenAI. logs. Qed.

#[local] Hint Resolve logsOnly_callGemini logsOnly_callOpenAI : logs.

Lemma nonEmpty_text (s : string) : nonEmpty s = true -> s <> "".
Proof. unfold nonEmpty. now destruct (String.eqb_spec s ""). Qed.

(** X14. The log file only grows while [handleChatRequest] runs, from
    any state, and what the run appends are records with a timestamp,
    a character, a message and a reason that are not empty; it appends
    nothing when the file cannot be written. *)
Theorem handleChatRequest_appends_complete_records
    (w : World) (req : ChatHandler.Request) (s : State) :
  exists added,
    logFile (fst (ChatHandler.handleChatRequest w req s)) = (logFile s ++ added)%list
    /\ (forall r, In r added ->
          timestamp r <> "" /\ character r <> "" /\ Host.message r <> "" /\ reason r <> "")
    /\ (logWritable w = false -> added = []).
Proof.
  assert (H : logsOnly (fun r => complete r && logWritable w)
                       (ChatHandler.handleChatRequest w req)).
  { unfold ChatHandler.handleChatRequest, ChatHandler.answerPipeline,
      ChatHandler.rawAnswerOf, ChatHandler.openAIFailed, ChatHandler.afterAnswer.
    logs. }
  destruct (H s) as [added [Hlog Hadded]]. exists added. split; [exact Hlog|].
  rewrite forallb_forall in Hadded. split.
  - intros r Hr. apply Hadded, andb_true_iff in Hr as [Hr _]. unfold complete in Hr.
    repeat (apply andb_true_iff in Hr as [Hr ?]).
    repeat split; now apply nonEmpty_text.
  - intros Hw. destruct added as [|r added]; [reflexivity|].
    specialize (Hadded r ltac:(now left)). rewrite Hw, andb_false_r in Hadded. discriminate.
Qed.

(** X15. Every call of the logger that the handler makes for a request
    carries the clock, the character and the message of this request,
    and one of five reasons: [empty_context], [model_refusal],
    [safety_refusal], or the failure of a provider behind
    [openai_error:] or [gemini_error:]. *)
Theorem logged_records_name_the_request
    (w : World) (characterSlug message : string)
    (pipeline : PipelineRunner.PipelineInputs) (r : UnansweredRecord) :
  In (Logged r)
     (trace (fst (run (ChatHandler.answerPipeline w characterSlug message pipeline)))) ->
  timestamp r = now w /\ character r = characterSlug /\ Host.message r = message
  /\ knownReason (reason r).
Proof.
  set (P := fun e =>
              match e with
              | Logged r =>
                  (timestamp r =? now w) && (character r =? characterSlug)
                  && (Host.message r =? message)
                  && ((reason r =? "empty_context") || (reason r =? "model_refusal")
                      || (reason r =? "safety_refusal")
                      || startsWith (reason r) "openai_error:"
                      || startsWith (reason r) "gemini_error:")
              | _ => true
              end).
  assert (Hall : emitsOnly P (ChatHandler.answerPipeline w characterSlug message pipeline)).
  { apply emitsOnly_answerPipeline; try reflexivity;
      try (cbn; now rewrite !String.eqb_refl).
    intros _. repeat split; try reflexivity;
      try (intros failure; cbn; now rewrite !String.eqb_refl);
      (eapply emitsOnly_weaken;
       [apply providerEvents_any; reflexivity
       | first [apply providerOnly_callOpenAI | apply providerOnly_callGemini]]). }
  destruct (Hall initial) as [events [Htrace Hevents]].
  unfold run. rewrite Htrace. cbn [trace initial app]. intros Hin.
  rewrite forallb_forall in Hevents. apply Hevents in Hin. cbn beta iota in Hin.
  apply andb_true_iff in Hin as [Hin Hreason].
  apply andb_true_iff in Hin as [Hin Hmessage].
  apply andb_true_iff in Hin as [Htime Hslug].
  apply String.eqb_eq in Htime, Hslug, Hmessage. repeat (split; [assumption|]).
  unfold knownReason. rewrite !orb_true_iff, !String.eqb_eq, !startsWith_iff in Hreason.
  simpl In. intuition.
Qed.

Lemma logged_records_name_the_request_witness :
  In (Logged (mkRecord "2024-05-01T10:00:00.000Z" "leo" "hello"
                       "openai_error:OpenAI error 500: overloaded"))
     (trace (fst (run (ChatHandler.answerPipeline (statusWorld 500 "overloaded")
                         "leo" "hello" groundedPipeline))))
  /\ knownReason "openai_error:OpenAI error 500: overloaded".
Proof.
  assert (Hin : In (Logged (mkRecord "2024-05-01T10:00:00.000Z" "leo" "hello"
                                     "openai_error:OpenAI error 500: overloaded"))
                   (trace (fst (run (ChatHandler.answerPipeline
                                       (statusWorld 500 "overloaded")
                                       "leo" "hello" groundedPipeline)))))
    by (vm_compute; tauto).
  split; [exact Hin|].
  exact (proj2 (proj2 (proj2 (logged_records_name_the_request
                                (statusWorld 500 "overloaded") "leo" "hello"
                                groundedPipeline _ Hin)))).
Defined.

(** ** The handler, from the request to the response *)

(** X16. [handleChatRequest] never takes the path of the empty
    context: whatever the files hold, no call of the logger gives the
    reason [empty_context], and every answer goes out with
    [shouldRefuse] false. *)
Theorem handleChatRequest_never_refuses_for_context
    (w : World) (req : ChatHandler.Request) :
  let final := fst (run (ChatHandler.handleChatRequest w req)) in
  (forall r, In (Logged r) (trace final) -> reason r <> "empty_context")
  /\ (forall status answer flag,
        In (SendJson status (AnswerBody answer flag)) (trace final) -> flag = false).
Proof.
  cbv zeta.
  set (P := fun e =>
              match e with
              | Logged r => negb (reason r =? "empty_context")
              | SendJson _ (AnswerBody _ flag) => negb flag
              | _ => true
              end).
  assert (Hall : forall e,
            In e (trace (fst (run (ChatHandler.handleChatRequest w req)))) -> P e = true).
  { unfold run.
    destruct (handleChatRequest_cases w req initial)
      as [[e [He ->]] | [[error ->] | [slug [message [history [pipeline [_ [_ [Hload ->]]]]]]]]].
    - cbn [fst trace initial app]. intros e' [<-|[]].
      simpl in He. now repeat (destruct He as [<-|He]; [reflexivity|]).
    - intros e [].
    - apply loadPipelineInputs_fields in Hload as [_ [_ Hflag]].
      assert (Hpipeline : emitsOnly P (ChatHandler.answerPipeline w slug message pipeline)).
      { apply emitsOnly_answerPipeline; rewrite ?Hflag; try reflexivity; try discriminate.
        intros _. repeat split; try reflexivity;
          (eapply emitsOnly_weaken;
           [apply providerEvents_any; reflexivity
           | first [apply providerOnly_callOpenAI | apply providerOnly_callGemini]]). }
      destruct (Hpipeline initial) as [events [-> Hevents]].
      now rewrite forallb_forall in Hevents. }
  split.
  - intros r Hin E. apply Hall in Hin. cbn in Hin. rewrite E in Hin. discriminate.
  - intros status answer flag Hin. apply Hall in Hin. cbn in Hin. now destruct flag.
Qed.



Lemma callOpenAI_missing_key (w : World) (systemPrompt userPrompt : string)
    (history : list value) (s : State) :
  envOr w "OPENAI_API_KEY" "" = "" ->
  OpenAIClient.callOpenAI w systemPrompt userPrompt history s
  = (mkState (sent s) (trace s ++ [Called OpenAI systemPrompt userPrompt history]) (logFile s),
     Throw (Error "Missing OPENAI_API_KEY")).
Proof. intros Hkey. unfold OpenAIClient.callOpenAI. cbv zeta. now rewrite Hkey. Qed.

(** X18. Without a key for the primary provider the handler sends it no
    request: [callOpenAI] fails at once, the failure is of the quota
    class, and the next thing the handler does is to call
    [callGemini]. *)
Theorem missing_openai_key_falls_back
    (w : World) (characterSlug message : string)
    (pipeline : PipelineRunner.PipelineInputs) :
  AnswerController.shouldRefuse (PipelineRunner.prompt pipeline) = false ->
  envOr w "OPENAI_API_KEY" "" = "" ->
  let systemPrompt := AnswerController.system (PipelineRunner.prompt pipeline) in
  let userPrompt := AnswerController.user (PipelineRunner.prompt pipeline) in
  let history := PipelineRunner.conversationHistory pipeline in
  let final := fst (run (ChatHandler.answerPipeline w characterSlug message pipeline)) in
  (exists rest,
     trace final
     = Called OpenAI systemPrompt userPrompt history
         :: Called Gemini systemPrompt userPrompt history :: rest)
  /\ existsb isOpenAIRequest (trace final) = false.
Proof.
  intros Hflag Hkey. cbv zeta. unfold run.
  rewrite (answerPipeline_primary w characterSlug message pipeline Hflag initial).
  rewrite callOpenAI_missing_key by assumption. cbn [trace initial app sent logFile].
  set (s1 := mkState 0 _ []).
  set (c := bind (ChatHandler.openAIFailed w characterSlug message pipeline
                    (Error "Missing OPENAI_API_KEY"))
                 (ChatHandler.afterAnswer w characterSlug message pipeline)).
  assert (Hfirst : emitsFirst
            (Called Gemini
               (AnswerController.system (PipelineRunner.prompt pipeline))
               (AnswerController.user (PipelineRunner.prompt pipeline))
               (PipelineRunner.conversationHistory pipeline)) c).
  { apply emitsFirst_bind; [|intros answered; now apply emitsOnly_afterAnswer].
    unfold ChatHandler.openAIFailed. cbv zeta.
    change (ChatHandler.isQuotaError
              (ChatHandler.messageOr (Error "Missing OPENAI_API_KEY") "OpenAI failed"))
      with true.
    cbn [negb]. apply emitsFirst_tryCatch; [|mono].
    apply emitsFirst_bind; [apply emitsFirst_callGemini | mono]. }
  assert (Hquiet : emitsOnly (fun e => negb (isOpenAIRequest e)) c).
  { apply emitsOnly_bind.
    - apply emitsOnly_openAIFailed; try reflexivity.
      eapply emitsOnly_weaken; [|apply geminiOnly_callGemini].
      intros [[] ? ? ?|[]| | |]; (discriminate || reflexivity).
    - intros answered. now apply emitsOnly_answered. }
  destruct (Hfirst s1) as [rest Hrest]. destruct (Hquiet s1) as [events [Hevents Hnone]].
  rewrite Hrest. split; [now exists rest|].
  rewrite Hrest in Hevents. apply app_inv_head in Hevents. subst events.
  cbn [trace s1 app existsb isOpenAIRequest orb].
  apply existsb_forallb_negb. now cbn [forallb isOpenAIRequest negb andb] in Hnone.
Qed.

Lemma missing_openai_key_falls_back_witness :
  AnswerController.shouldRefuse (PipelineRunner.prompt groundedPipeline) = false
  /\ envOr (geminiWorld [200%Z]) "OPENAI_API_KEY" "" = ""
  /\ trace (fst (run (ChatHandler.answerPipeline (geminiWorld [200%Z])
                        "leo" "hello" groundedPipeline)))
     = [Called OpenAI "You are a hero." "Question: hello" [];
        Called Gemini "You are a hero." "Question: hello" [];
        Sent (GeminiGenerate "gemini-1.5-flash" "g-test"
                [mkTurn "user" "You are a hero."; mkTurn "user" "Question: hello"]);
        SendJson 200 (AnswerBody "Good morning!" false)]
  /\ existsb isOpenAIRequest
       (trace (fst (run (ChatHandler.answerPipeline (geminiWorld [200%Z])
                           "leo" "hello" groundedPipeline)))) = false.
Proof.
  split; [reflexivity|]. split; [reflexivity|]. split; [reflexivity|].
  exact (proj2 (missing_openai_key_falls_back (geminiWorld [200%Z]) "leo" "hello"
                  groundedPipeline eq_refl eq_refl)).
Defined.

(** X19. When the primary provider fails with a failure of the quota
    class and the secondary provider fails too, the handler returns
    with two more steps: it logs the failure of the secondary provider
    under [gemini_error:], and it answers 500 with both failures in
    the one message. *)
Theorem both_providers_fail
    (w : World) (characterSlug message : string)
    (pipeline : PipelineRunner.PipelineInputs)
    (s1 s2 : State) (openAiError fallbackError : js_error) :
  let systemPrompt := AnswerController.system (PipelineRunner.prompt pipeline) in
  let userPrompt := AnswerController.user (PipelineRunner.prompt pipeline) in
  let history := PipelineRunner.conversationHistory pipeline in
  let openAiMessage := ChatHandler.messageOr openAiError "OpenAI failed" in
  let fallbackMessage := ChatHandler.messageOr fallbackError "Gemini failed" in
  AnswerController.shouldRefuse (PipelineRunner.prompt pipeline) = false ->
  run (OpenAIClient.callOpenAI w systemPrompt userPrompt history) = (s1, Throw openAiError) ->
  quotaClass openAiMessage ->
  GeminiClient.callGemini w systemPrompt userPrompt history s1 = (s2, Throw fallbackError) ->
  snd (run (ChatHandler.answerPipeline w characterSlug message pipeline)) = Ok tt
  /\ trace (fst (run (ChatHandler.answerPipeline w characterSlug message pipeline)))
     = (trace s2
          ++ [Logged (mkRecord (now w) characterSlug message
                               ("gemini_error:" ++ fallbackMessage));
              SendJson 500
                (ErrorBody ("OpenAI failed: " ++ openAiMessage
                            ++ ". Gemini failed: " ++ fallbackMessage))])%list.
Proof.
  cbv zeta. intros Hflag Hprimary Hquota Hfallback. unfold run in *.
  assert (Hrun : exists lines,
            ChatHandler.answerPipeline w characterSlug message pipeline initial
            = (mkState (sent s2)
                 (trace s2
                    ++ [Logged (mkRecord (now w) characterSlug message
                                  ("gemini_error:"
                                   ++ ChatHandler.messageOr fallbackError "Gemini failed"));
                        SendJson 500
                          (ErrorBody
                             ("OpenAI failed: "
                              ++ ChatHandler.messageOr openAiError "OpenAI failed"
                              ++ ". Gemini failed: "
                              ++ ChatHandler.messageOr fallbackError "Gemini failed"))])
                 lines,
               Ok tt)).
  { rewrite (answerPipeline_primary w characterSlug message pipeline Hflag initial), Hprimary.
    apply isQuotaError_iff in Hquota.
    unfold ChatHandler.openAIFailed. cbv zeta. rewrite Hquota. cbn [negb].
    unfold bind at 1. unfold tryCatch. unfold bind at 1. rewrite Hfallback.
    run_log lines. exists lines.
    unfold bind, ChatHandler.sendJson, emit, ret, ChatHandler.afterAnswer.
    unfold ret. cbn [sent trace logFile]. now rewrite <- app_assoc. }
  destruct Hrun as [lines ->]. split; reflexivity.
Qed.

Lemma both_providers_fail_witness :
  AnswerController.shouldRefuse (PipelineRunner.prompt groundedPipeline) = false
  /\ quotaClass "Missing OPENAI_API_KEY"
  /\ run (ChatHandler.answerPipeline (offlineWorld "2024-05-01T10:00:00.000Z")
            "leo" "hello" groundedPipeline)
     = (mkState 0
          [Called OpenAI "You are a hero." "Question: hello" [];
           Called Gemini "You are a hero." "Question: hello" [];
           Logged (mkRecord "2024-05-01T10:00:00.000Z" "leo" "hello"
                            "gemini_error:Missing GEMINI_API_KEY");
           SendJson 500
             (ErrorBody
                "OpenAI failed: Missing OPENAI_API_KEY. Gemini failed: Missing GEMINI_API_KEY")]
          [mkRecord "2024-05-01T10:00:00.000Z" "leo" "hello"
                    "gemini_error:Missing GEMINI_API_KEY"],
        Ok tt)
  /\ trace (fst (run (ChatHandler.answerPipeline (offlineWorld "2024-05-01T10:00:00.000Z")
                        "leo" "hello" groundedPipeline)))
     = [Called OpenAI "You are a hero." "Question: hello" [];
        Called Gemini "You are a hero." "Question: hello" [];
        Logged (mkRecord "2024-05-01T10:00:00.000Z" "leo" "hello"
                         "gemini_error:Missing GEMINI_API_KEY");
        SendJson 500
          (ErrorBody
             "OpenAI failed: Missing OPENAI_API_KEY. Gemini failed: Missing GEMINI_API_KEY")].
Proof.
  assert (Hquota : quotaClass "Missing OPENAI_API_KEY")
    by (apply isQuotaError_iff; reflexivity).
  split; [reflexivity|]. split; [exact Hquota|]. split; [reflexivity|].
  exact (proj2 (both_providers_fail (offlineWorld "2024-05-01T10:00:00.000Z")
                  "leo" "hello" groundedPipeline
                  (mkState 0 [Called OpenAI "You are a hero." "Question: hello" []] [])
                  (mkState 0 [Called OpenAI "You are a hero." "Question: hello" [];
                              Called Gemini "You are a hero." "Question: hello" []] [])
                  (Error "Missing OPENAI_API_KEY") (Error "Missing GEMINI_API_KEY")
                  eq_refl eq_refl Hquota eq_refl)).
Defined.





(** ** The list of models *)





Lemma substring_all (s : string) : String.substring 0 (String.length s) s = s.
Proof. induction s as [|c s IH]; simpl; [reflexivity | now rewrite IH]. Qed.

(** The prefix [models/] goes, and the name behind it stays. *)
Lemma stripModelsPrefix_prefixed (name : string) :
  GeminiClient.stripModelsPrefix ("models/" ++ name) = name.
Proof.
  unfold GeminiClient.stripModelsPrefix.
  change (startsWith ("models/" ++ name) "models/") with true. cbv iota.
  cbn [String.length append Nat.sub String.substring]. rewrite Nat.sub_0_r.
  apply substring_all.
Qed.

Lemma supportsGeneration_listed (name : string) (methods : list string) :
  GeminiClient.supportsGeneration (listedModel name methods)
  = existsb (fun method => method =? "generateContent") methods.
Proof.
  unfold GeminiClient.supportsGeneration, listedModel. cbn [optChain member lookup].
  change ("name" =? "supportedGenerationMethods") with false.
  change ("supportedGenerationMethods" =? "supportedGenerationMethods") with true.
  cbv iota. induction methods as [|method methods IH]; [reflexivity|].
  cbn [map existsb]. now rewrite IH.
Qed.

Lemma listedModel_name (name : string) (methods : list string) :
  toString (orElse (optChain (Some (listedModel name methods)) "name") (VStr "")) = name.
Proof.
  unfold listedModel. cbn [optChain member lookup].
  change ("name" =? "name") with true. cbv iota. unfold orElse. cbn [truthy].
  unfold nonEmpty. now destruct (String.eqb_spec name "") as [->|].
Qed.

(** X23. How [listGeminiModels] reads the list the service returns:
    of the models listed as [models/<name>] with their generation
    methods, it keeps the ones that support [generateContent], in the
    order of the list, and gives their names without the prefix. *)
Theorem listOutcome_names
    (status : Z) (data : string) (models : list (string * list string)) :
  (200 <= status < 300)%Z ->
  GeminiClient.listOutcome
    (Response status data
       (Ok (VObj [("models",
                   VArr (map (fun model => listedModel ("models/" ++ fst model) (snd model))
                             models))])))
  = Ok (map fst
          (filter (fun model => existsb (fun method => method =? "generateContent")
                                        (snd model))
                  models)).
Proof.
  intros Hstatus.
  assert (Hok : GeminiClient.notSuccess status = false)
    by (unfold GeminiClient.notSuccess; apply orb_false_iff; split; lia).
  unfold GeminiClient.listOutcome. rewrite Hok. cbv iota.
  cbv beta iota delta [bindR]. cbv zeta.
  match goal with
  | |- context [optChain (Some (VObj [("models", VArr ?items)])) "models"] =>
      change (optChain (Some (VObj [("models", VArr items)])) "models")
        with (Some (VArr items))
  end.
  cbv iota. f_equal. induction models as [|[name methods] models IH]; [reflexivity|].
  cbn [map filter fst snd]. rewrite supportsGeneration_listed.
  destruct (existsb _ methods); [|exact IH].
  cbn [map filter]. rewrite listedModel_name.
  change (0 <? String.length ("models/" ++ name))%nat with true. cbv iota.
  cbn [map]. now rewrite stripModelsPrefix_prefixed, IH.
Qed.

Lemma listOutcome_names_witness :
  (200 <= 200 < 300)%Z
  /\ GeminiClient.listOutcome
       (Response 200 "(the list)"
          (Ok (VObj [("models",
                      VArr [listedModel "models/embedding-001" ["embedContent"];
                            listedModel "models/gemini-1.5-pro"
                              ["generateContent"; "countTokens"]])])))
     = Ok ["gemini-1.5-pro"].
Proof.
  split; [lia|].
  exact (listOutcome_names 200 "(the list)"
           [("embedding-001", ["embedContent"]);
            ("gemini-1.5-pro", ["generateContent"; "countTokens"])]
           ltac:(lia)).
Defined.

(** ** Placeholders in the question *)

Lemma replaceTokens_braceFree (K : ascii -> bool) (f : string -> string) (text : string) :
  braceFree text = true -> AnswerController.replaceTokens K f 0 text = text.
Proof.
  intros Hfree. rewrite <- (append_empty_r text) at 1.
  rewrite replaceTokens_literal by assumption. apply append_empty_r.
Qed.

Lemma word_not_dot (c : ascii) : isWordChar c = true -> Ascii.eqb c "." = false.
Proof. destruct c as [[] [] [] [] [] [] [] []]; vm_compute; congruence. Qed.

Lemma splitChar_word (key : string) : isFlat key = true -> splitChar "." key = [key].
Proof.
  unfold isFlat. induction key as [|c key IH]; [reflexivity|].
  simpl. rewrite andb_true_iff. intros [Hc Hkey].
  now rewrite (word_not_dot c Hc), (IH Hkey).
Qed.

(** X24. The question of the user is itself read as a template.  With
    an answer prompt that has the placeholder [{{question}}], the
    first pass of [renderTemplate] puts the question in its place and
    the second pass expands the dotted placeholders that the question
    holds: the question [{{guardrails.key}}] brings the text that the
    guardrails of the character have under [key] into the user
    prompt. *)
Theorem question_placeholders_are_expanded
    (w : World) (input : AnswerController.RagAnswerInput)
    (before after key secret : string) (fields : list (string * value)) :
  AnswerController.readPrompt w "answer_with_rag.txt" = before ++ "{{question}}" ++ after ->
  braceFree before = true -> braceFree after = true ->
  AnswerController.question input = "{{guardrails." ++ key ++ "}}" ->
  nonEmpty key = true -> isFlat key = true ->
  AnswerController.guardrails input = Some (VObj fields) ->
  lookup fields key = Some (VStr secret) ->
  AnswerController.user (AnswerController.buildRagOnlyPrompt w input)
  = before ++ secret ++ after.
Proof.
  intros Htemplate Hbefore Hafter Hquestion Hkey Hflat Hguardrails Hsecret.
  unfold AnswerController.buildRagOnlyPrompt. cbv zeta. cbn [AnswerController.user].
  rewrite Htemplate, Hquestion, Hguardrails.
  unfold AnswerController.renderTemplate. cbv zeta.
  match goal with
  | |- AnswerController.replaceTokens _ (AnswerController.replaceNested ?v) _ _ = _ =>
      set (vars := v)
  end.
  (* the first pass *)
  rewrite replaceTokens_literal by assumption.
  change ("{{question}}" ++ after) with ("{{" ++ "" ++ "question" ++ "" ++ "}}" ++ after).
  rewrite replaceTokens_token by (reflexivity || apply word_is_path).
  rewrite (replaceTokens_braceFree _ _ after) by assumption.
  change (AnswerController.replaceSimple vars "question")
    with ("{{" ++ "" ++ ("guardrails." ++ key) ++ "}}").
  (* the second pass *)
  rewrite replaceTokens_literal by assumption.
  replace (("{{" ++ "" ++ ("guardrails." ++ key) ++ "}}") ++ after)
    with ("{{" ++ "" ++ ("guardrails." ++ key) ++ "" ++ "}}" ++ after)
    by (cbn [append]; now rewrite append_assoc).
  rewrite replaceTokens_token;
    [ | auto | reflexivity | reflexivity | reflexivity
      | cbn [append allChars]; apply (allChars_weaken isWordChar); [apply word_is_path | exact Hflat] ].
  rewrite (replaceTokens_braceFree _ _ after) by assumption.
  do 2 f_equal.
  unfold AnswerController.replaceNested.
  change (splitChar "." ("guardrails." ++ key))
    with ("guardrails" :: splitChar "." key).
  rewrite (splitChar_word key Hflat).
  unfold vars, AnswerController.resolvePath. cbn [lookup].
  change ("context" =? "guardrails") with false.
  change ("question" =? "guardrails") with false.
  change ("character" =? "guardrails") with false.
  change ("refusal_text" =? "guardrails") with false.
  change ("guardrails" =? "guardrails") with true. cbv iota.
  cbn [orElse truthy AnswerController.traverse typeofObject andb].
  unfold hasProperty. cbn [member]. rewrite Hsecret. reflexivity.
Qed.

Lemma question_placeholders_are_expanded_witness :
  AnswerController.readPrompt curiousWorld "answer_with_rag.txt"
  = "Q: " ++ "{{question}}" ++ "!"
  /\ AnswerController.question curiousInput = "{{guardrails." ++ "tone" ++ "}}"
  /\ AnswerController.user (AnswerController.buildRagOnlyPrompt curiousWorld curiousInput)
     = "Q: Be brave!".
Proof.
  split; [reflexivity|]. split; [reflexivity|].
  exact (question_placeholders_are_expanded curiousWorld curiousInput
           "Q: " "!" "tone" "Be brave" [("tone", VStr "Be brave")]
           eq_refl eq_refl eq_refl eq_refl eq_refl eq_refl eq_refl eq_refl).
Defined.

(** ** Edges of the safety filter and of the payload *)

Lemma includes_empty (s : string) : includes s "" = true.
Proof. now destruct s. Qed.

(** X25. A forbidden topic that prints as the empty string, the empty
    text or an empty array in [hard_blocked_topics], occurs in every
    answer: with such a topic in the configuration [enforceSafety]
    returns the refusal text whatever the answer is. *)
Theorem empty_topic_blocks_every_answer
    (safety : AnswerController.SafetyConfig) (topic : value)
    (answer : string) (guardrails : value) (refusalText : string) :
  In topic (AnswerController.forbiddenTopics safety) ->
  toString topic = "" ->
  AnswerController.enforceSafety answer safety guardrails refusalText = refusalText.
Proof.
  intros Hin Hempty. unfold AnswerController.enforceSafety.
  assert (H : AnswerController.containsForbiddenTopic answer
                (AnswerController.forbiddenTopics safety) = true).
  { unfold AnswerController.containsForbiddenTopic. apply existsb_exists.
    exists topic. split; [exact Hin|]. rewrite Hempty. apply includes_empty. }
  now rewrite H.
Qed.

Lemma empty_topic_blocks_every_answer_witness :
  In (VStr "") (AnswerController.forbiddenTopics (topicsConfig ["war"; ""]))
  /\ AnswerController.enforceSafety "Good morning!" (topicsConfig ["war"; ""]) (VObj [])
       "Let us talk about something else."
     = "Let us talk about something else.".
Proof.
  assert (Hin : In (VStr "") (AnswerController.forbiddenTopics (topicsConfig ["war"; ""])))
    by (simpl; tauto).
  split; [exact Hin|].
  exact (empty_topic_blocks_every_answer (topicsConfig ["war"; ""]) (VStr "")
           "Good morning!" (VObj []) "Let us talk about something else." Hin eq_refl).
Defined.



